(** * Kibana fragments: Zeek renderers, filter-bar service, Lens memory chart,
      console settings and the guided-onboarding state endpoint.

    A shallow embedding of the functions of the TypeScript sources that carry
    logic, with the properties stated about them.  JavaScript objects used as
    dictionaries are finite maps or association lists, driver calls of the
    page-object service are recorded as a trace, storage accesses thread the
    store explicitly. *)

From Stdlib Require Import ZArith Lia Ascii String.
From Stdlib Require Import DecimalString DecimalZ DecimalPos DecimalNat DecimalN.
From stdpp Require Import gmap strings list fin_maps.

Set Warnings "-register-all".

Open Scope string_scope.
Open Scope list_scope.
Open Scope stdpp_scope.

(** ** Shared JavaScript vocabulary *)

(** A value of type [T | null | undefined].  The sources test such values
    with [!= null], which is false for both [null] and [undefined]. *)
Inductive Nullable (A : Type) : Type :=
| JsNull
| JsUndefined
| JsValue (a : A).
Arguments JsNull {A}.
Arguments JsUndefined {A}.
Arguments JsValue {A} a.

(** The property names every object literal inherits from
    [Object.prototype]; a read [obj[key]] finds them when [obj] has no own
    property [key]. *)
Definition Object_prototype_members : list string :=
  [ "constructor"; "__defineGetter__"; "__defineSetter__"; "hasOwnProperty";
    "__lookupGetter__"; "__lookupSetter__"; "isPrototypeOf";
    "propertyIsEnumerable"; "toString"; "valueOf"; "__proto__";
    "toLocaleString" ].

(** [`${index}`] for an array index *)
Definition index_to_string (index : nat) : string :=
  NilEmpty.string_of_uint (Nat.to_uint index).

(** Lookup in an object literal's own properties, in source order. *)
Fixpoint own_property {V} (props : list (string * V)) (key : string) : option V :=
  match props with
  | [] => None
  | (k, v) :: rest => if String.eqb k key then Some v else own_property rest key
  end.

(** ** zeek_signature.tsx *)
Module Zeek.

(** [String.prototype.split] with a one-character separator. *)
Fixpoint split (separator : ascii) (value : string) : list string :=
  match value with
  | EmptyString => [EmptyString]
  | String c rest =>
      if Ascii.eqb c separator then EmptyString :: split separator rest
      else match split separator rest with
           | [] => [String c EmptyString]
           | segment :: segments => String c segment :: segments
           end
  end.

(** [Array.prototype.join] with a one-character separator. *)
Fixpoint join (separator : ascii) (segments : list string) : string :=
  match segments with
  | [] => EmptyString
  | [segment] => segment
  | segment :: rest => segment +:+ String separator (join separator rest)
  end.

(** Whether a character occurs in a string. *)
Fixpoint contains (c : ascii) (value : string) : bool :=
  match value with
  | EmptyString => false
  | String c' rest => Ascii.eqb c' c || contains c rest
  end.

(** [moduleStringRenderer]: [split[1]] is [undefined] past the end of the
    array, which the list lookup renders as [None]; [split[0]] always
    exists. *)
Definition moduleStringRenderer (value : string) : string :=
  let split := split "." value in
  if (2 <=? length split)%nat && bool_decide (is_Some (split !! 1%nat)) then
    match split !! 1%nat with
    | Some second =>
        if negb (String.eqb second "") then second
        else default value (split !! 0%nat)
    | None => value
    end
  else value.

(** The texts of [./translations], one per connection-state code. *)
Record Translations : Type := {
  S0 : string; S1 : string; S2 : string; S3 : string; SF : string;
  REJ : string; RSTO : string; RSTR : string; RSTOS0 : string;
  RSTRH : string; SH : string; SHR : string; OTH : string
}.

(** What a property read on the dictionary can yield: the text of an own
    property, a member inherited from [Object.prototype], or [undefined]. *)
Inductive Property : Type :=
| Text (text : string)
| Inherited (member : string)
| Undefined.

Section Dictionary.

Variable i18n : Translations.

(** The text [`${m}`] produces for an inherited member [m] (for a native
    function, its source text as the engine prints it). *)
Variable inherited_to_string : string -> string.

Definition zeekConnLogDictionay : list (string * string) :=
  [ ("S0", S0 i18n); ("S1", S1 i18n); ("S2", S2 i18n); ("S3", S3 i18n);
    ("SF", SF i18n); ("REJ", REJ i18n); ("RSTO", RSTO i18n);
    ("RSTR", RSTR i18n); ("RSTOS0", RSTOS0 i18n); ("RSTRH", RSTRH i18n);
    ("SH", SH i18n); ("SHR", SHR i18n); ("OTH", OTH i18n) ].

(** The thirteen connection-state codes. *)
Definition codes : list string := zeekConnLogDictionay.*1.

(** [zeekConnLogDictionay[state]] *)
Definition lookup (state : string) : Property :=
  match own_property zeekConnLogDictionay state with
  | Some text => Text text
  | None =>
      if bool_decide (state ∈ Object_prototype_members) then Inherited state
      else Undefined
  end.

(** [p != null] for a property read. *)
Definition property_not_nullish (p : Property) : bool :=
  match p with
  | Undefined => false
  | _ => true
  end.

(** [`${p}`] *)
Definition property_to_string (p : Property) : string :=
  match p with
  | Text text => text
  | Inherited member => inherited_to_string member
  | Undefined => "undefined"
  end.

(** [extractStateLink]; [state != null] holds of [JsValue _] only, and [None]
    is the [null] the function returns. *)
Definition extractStateLink (state : Nullable string) : option string :=
  match state with
  | JsValue state =>
      let lookup := lookup state in
      if property_not_nullish lookup then
        Some (state +:+ " " +:+ property_to_string lookup)
      else Some state
  | _ => None
  end.

(** [extractStateValue]; the value returned is the property read itself, so
    the result is a [Nullable Property] with [JsNull] for the [null] branch. *)
Definition extractStateValue (state : Nullable string) : Nullable Property :=
  match state with
  | JsValue state =>
      if property_not_nullish (lookup state) then JsValue (lookup state)
      else JsNull
  | _ => JsNull
  end.

End Dictionary.

(** *** The other renderers *)

Definition defaultStringRenderer (value : string) : string := value.

Definition droppedStringRenderer (value : string) : string :=
  "Dropped:" +:+ value.

(** [value.substr(0, length)] *)
Definition substr_from_start (length : nat) (value : string) : string :=
  substring 0 length value.

Definition md5StringRenderer (value : string) : string :=
  "md5: " +:+ substr_from_start 7 value +:+ "...".

Definition sha1StringRenderer (value : string) : string :=
  "sha1: " +:+ substr_from_start 7 value +:+ "...".

(** [String(dropped)] for a boolean *)
Definition boolean_to_string (b : bool) : string :=
  if b then "true" else "false".

Definition constructDroppedValue (dropped : Nullable bool) : option string :=
  match dropped with
  | JsValue dropped => Some (boolean_to_string dropped)
  | _ => None
  end.

(** *** The [Link] component

    What it renders inside its flex item: a [GoogleLink] to [link] showing
    the value, or a [GoogleLink] to the value itself. *)
Inductive LinkElement (V : Type) : Type :=
| GoogleLinkWithChildren (link : string) (children : V)
| GoogleLinkTo (link : V).
Arguments GoogleLinkWithChildren {V} link children.
Arguments GoogleLinkTo {V} link.

(** [Link]; [None] is the [null] it renders. *)
Definition Link {V} (value : Nullable V) (link : Nullable string)
  : option (LinkElement V) :=
  match value with
  | JsValue value =>
      match link with
      | JsValue link => Some (GoogleLinkWithChildren link value)
      | _ => Some (GoogleLinkTo value)
      end
  | _ => None
  end.

(** A [string | null] result handed on as a prop. *)
Definition nullable_of_option {A} (o : option A) : Nullable A :=
  match o with
  | Some a => JsValue a
  | None => JsNull
  end.

(** The first link of [ZeekSignature]:
    [<Link link={stateLink} value={stateValue} />] with
    [stateLink = extractStateLink(state)] and
    [stateValue = extractStateValue(state)]. *)
Definition stateLinkElement (i18n : Translations)
  (inherited_to_string : string -> string) (state : Nullable string)
  : option (LinkElement Property) :=
  Link (extractStateValue i18n state)
    (nullable_of_option (extractStateLink i18n inherited_to_string state)).

End Zeek.

(** ** The filter-bar page-object service (FilterBarService) *)
Module FilterBar.

Inductive Operation : Type :=
| IS | IS_NOT | IS_ONE_OF | IS_NOT_ONE_OF
| IS_BETWEEN | IS_NOT_BETWEEN | EXISTS | DOES_NOT_EXIST.

(** The string each member of [Operation] stands for. *)
Definition operation_text (operation : Operation) : string :=
  match operation with
  | IS => "is"
  | IS_NOT => "is not"
  | IS_ONE_OF => "is one of"
  | IS_NOT_ONE_OF => "is not one of"
  | IS_BETWEEN => "is between"
  | IS_NOT_BETWEEN => "is not between"
  | EXISTS => "exists"
  | DOES_NOT_EXIST => "does not exist"
  end.

Inductive BooleanRelation : Type := AND | OR.

Section Filters.

(** JavaScript numbers and their [`${n}`] rendering are the language's. *)
Context {number : Type}.
Variable number_to_string : number -> string.

(** The [value] property of a leaf, as the object holds it at run time. *)
Inductive FilterValue : Type :=
| SingleValue (value : string)
| MultipleValues (values : list string)
| Range (from to : option number).

(** A leaf object: [field], [operation] and, when present, [value]. *)
Record FilterLeaf : Type := {
  field : string;
  operation : Operation;
  value : option FilterValue
}.

(** The [FilterLeaf] union: which [value] each [operation] goes with. *)
Definition is_FilterLeaf (filter : FilterLeaf) : bool :=
  match operation filter, value filter with
  | (EXISTS | DOES_NOT_EXIST), None => true
  | (IS | IS_NOT), Some (SingleValue _) => true
  | (IS_ONE_OF | IS_NOT_ONE_OF), Some (MultipleValues _) => true
  | (IS_BETWEEN | IS_NOT_BETWEEN), Some (Range _ _) => true
  | _, _ => false
  end.

(** [Filter = FilterLeaf | FilterNode] *)
Inductive Filter : Type :=
| Leaf (leaf : FilterLeaf)
| Node (condition : BooleanRelation) (filters : list Filter).

(** The property names of a leaf object. *)
Definition leaf_keys (filter : FilterLeaf) : list string :=
  match value filter with
  | Some _ => ["field"; "operation"; "value"]
  | None => ["field"; "operation"]
  end.

(** The property names of a filter object. *)
Definition filter_keys (filter : Filter) : list string :=
  match filter with
  | Leaf leaf => leaf_keys leaf
  | Node _ _ => ["condition"; "filters"]
  end.

(** [key in object], for an object with the property names [keys]. *)
Definition key_in (key : string) (keys : list string) : bool :=
  existsb (String.eqb key) keys.

(** [Array.isArray(value)] *)
Definition Array_isArray (value : FilterValue) : bool :=
  match value with
  | MultipleValues _ => true
  | _ => false
  end.

(** [typeof value] *)
Definition typeof (value : FilterValue) : string :=
  match value with
  | SingleValue _ => "string"
  | MultipleValues _ => "object"
  | Range _ _ => "object"
  end.

(** The property names of a [value] that is an object. *)
Definition value_keys (value : FilterValue) : list string :=
  match value with
  | Range _ _ => ["from"; "to"]
  | _ => []
  end.

Definition isFilterLeafWithoutValue (filter : FilterLeaf) : bool :=
  negb (key_in "value" (leaf_keys filter)).

Definition isFilterWithRange (filter : FilterLeaf) : bool :=
  key_in "value" (leaf_keys filter) &&
  match value filter with
  | Some value =>
      negb (Array_isArray value) &&
      String.eqb (typeof value) "object" &&
      key_in "from" (value_keys value) &&
      key_in "to" (value_keys value)
  | None => false
  end.

Definition isFilterNode (filter : Filter) : bool :=
  key_in "filters" (filter_keys filter) && key_in "condition" (filter_keys filter).

(** *** The driver calls

    Every awaited call on the browser driver is one event of the trace, with
    the element it addresses.  The calls are taken to succeed: a failing one
    rejects the promise and ends the run there. *)

Inductive Element : Type :=
| TestSubject (selector : string)                  (* testSubjects.find *)
| ByTestSubject (parent : Element) (subject : string) (* findByTestSubject *)
| ByTagName (parent : Element) (tag : string).     (* findByTagName *)

Inductive Key : Type := ENTER | TAB.

Inductive Action : Type :=
| Find (element : Element)
| Click (element : Element)
| SetElement (element : Element) (text : string)   (* comboBox.setElement *)
| TypeText (element : Element) (text : string)     (* element.type *)
| TypeKey (element : Element) (key : Key).

Definition filterForm (path : string) : Element :=
  TestSubject ("filter-" +:+ path).

Definition addOrFilter (path : string) : list Action :=
  let addOrBtn := ByTestSubject (filterForm path) "add-or-filter" in
  [Find (filterForm path); Find addOrBtn; Click addOrBtn].

Definition addAndFilter (path : string) : list Action :=
  let addAndBtn := ByTestSubject (filterForm path) "add-and-filter" in
  [Find (filterForm path); Find addAndBtn; Click addAndBtn].

Definition addConditionalFilter (condition : BooleanRelation) (path : string)
  : list Action :=
  match condition with
  | OR => addOrFilter path
  | AND => addAndFilter path
  end.

(** [`${bound ?? ''}`] *)
Definition bound_to_string (bound : option number) : string :=
  match bound with
  | Some n => number_to_string n
  | None => ""
  end.

Definition pasteFilterData (filter : FilterLeaf) (path : string) : list Action :=
  let filterForm := filterForm path in
  let fieldInput := ByTestSubject filterForm "filterFieldSuggestionList" in
  let operatorInput := ByTestSubject filterForm "filterOperatorList" in
  [ Find filterForm; Find fieldInput; SetElement fieldInput (field filter);
    Find operatorInput;
    SetElement operatorInput (operation_text (operation filter)) ] ++
  if isFilterLeafWithoutValue filter then []
  else if isFilterWithRange filter then
    let startInput := ByTestSubject filterForm "range-start" in
    let endInput := ByTestSubject filterForm "range-end" in
    match value filter with
    | Some (Range from to) =>
        [ Find startInput; Find endInput;
          TypeText startInput (bound_to_string from);
          TypeText endInput (bound_to_string to) ]
    | _ => []
    end
  else
    let fieldParams := ByTestSubject filterForm "filterParams" in
    let filterValueInput := ByTagName fieldParams "input" in
    [Find fieldParams; Find filterValueInput] ++
    match value filter with
    | Some (MultipleValues values) =>
        flat_map (fun value => [ TypeText filterValueInput value;
                                 TypeKey filterValueInput ENTER ]) values
    | Some (SingleValue value) => [TypeText filterValueInput value]
    | _ => []
    end.

(** [`${path}.${index}`] *)
Definition child_path (path : string) (index : nat) : string :=
  path +:+ "." +:+ index_to_string index.

(** The [for] loop of [createFilter] over [filter.filters.entries()], from
    entry [index] on; [create] is the method called on each child, [total] is
    [filter.filters.length], and the test [index < total - 1] is over the
    integers. *)
Fixpoint createFilter_loop (create : Filter -> string -> list Action)
  (condition : BooleanRelation) (path : string) (total : nat)
  (entries : list Filter) (index : nat) (startedAdding : bool) : list Action :=
  match entries with
  | [] => []
  | f :: entries =>
      (if (Z.of_nat index <? Z.of_nat total - 1)%Z then
         addConditionalFilter condition
           (if startedAdding then child_path path index else path)
       else []) ++
      create f (child_path path index) ++
      createFilter_loop create condition path total entries (S index) true
  end.

Fixpoint createFilter (filter : Filter) (path : string) : list Action :=
  match filter with
  | Node condition filters =>
      createFilter_loop createFilter condition path (length filters)
        filters 0%nat false
  | Leaf leaf => pasteFilterData leaf path
  end.

(** The same method with the recursion left open: every call of
    [createFilter] spends one unit of [fuel], and [None] is a run that was
    cut short. *)
Fixpoint createFilter_loop_fuel
  (create : Filter -> string -> option (list Action))
  (condition : BooleanRelation) (path : string) (total : nat)
  (entries : list Filter) (index : nat) (startedAdding : bool)
  : option (list Action) :=
  match entries with
  | [] => Some []
  | f :: entries =>
      let joiner :=
        if (Z.of_nat index <? Z.of_nat total - 1)%Z then
          addConditionalFilter condition
            (if startedAdding then child_path path index else path)
        else [] in
      match create f (child_path path index) with
      | None => None
      | Some child =>
          match createFilter_loop_fuel create condition path total entries
                  (S index) true with
          | None => None
          | Some others => Some (joiner ++ child ++ others)
          end
      end
  end.

Fixpoint createFilter_fuel (fuel : nat) (filter : Filter) (path : string)
  : option (list Action) :=
  match fuel with
  | O => None
  | S fuel =>
      match filter with
      | Node condition filters =>
          createFilter_loop_fuel (createFilter_fuel fuel) condition path
            (length filters) filters 0%nat false
      | Leaf leaf => Some (pasteFilterData leaf path)
      end
  end.

(** Nesting depth of a filter tree; a leaf has depth 0. *)
Fixpoint depth (filter : Filter) : nat :=
  match filter with
  | Leaf _ => 0
  | Node _ filters => S (foldr (fun f d => Nat.max (depth f) d) 0%nat filters)
  end.

(** Clicks on a joiner button, by the button's test subject. *)
Definition is_click_on (subject : string) (action : Action) : bool :=
  match action with
  | Click (ByTestSubject _ s) => String.eqb s subject
  | _ => false
  end.

Definition or_clicks (trace : list Action) : nat :=
  length (filter (fun a => is_click_on "add-or-filter" a = true) trace).

Definition and_clicks (trace : list Action) : nat :=
  length (filter (fun a => is_click_on "add-and-filter" a = true) trace).

(** *** What a trace shows *)

(** The form an element lies in: the test subject its lookup starts from. *)
Fixpoint element_form (element : Element) : string :=
  match element with
  | TestSubject selector => selector
  | ByTestSubject parent _ => element_form parent
  | ByTagName parent _ => element_form parent
  end.

Definition action_element (action : Action) : Element :=
  match action with
  | Find element | Click element | SetElement element _
  | TypeText element _ | TypeKey element _ => element
  end.

(** The form and the field name of a [comboBox.setElement] on a field
    input. *)
Definition filled_form (action : Action) : option (string * string) :=
  match action with
  | SetElement (ByTestSubject (TestSubject selector) subject) text =>
      if String.eqb subject "filterFieldSuggestionList"
      then Some (selector, text) else None
  | _ => None
  end.

Definition filled_forms (trace : list Action) : list (string * string) :=
  omap filled_form trace.

(** A [comboBox.setElement]: the element and the text set. *)
Definition set_element (action : Action) : option (Element * string) :=
  match action with
  | SetElement element text => Some (element, text)
  | _ => None
  end.

(** All calls of [comboBox.setElement], in order. *)
Definition set_elements (trace : list Action) : list (Element * string) :=
  omap set_element trace.

Definition typed_text (action : Action) : option string :=
  match action with
  | TypeText _ text => Some text
  | _ => None
  end.

(** The texts typed into inputs, in order. *)
Definition typed_texts (trace : list Action) : list string :=
  omap typed_text trace.

Definition enter_key (action : Action) : option Element :=
  match action with
  | TypeKey element ENTER => Some element
  | _ => None
  end.

(** How often ENTER is pressed. *)
Definition enter_keys (trace : list Action) : nat :=
  length (omap enter_key trace).

(** *** What a filter tree holds *)

(** The leaves of a tree from left to right, each with its path: the path
    of the tree, then a dot and the index of the child for every node gone
    through. *)
Fixpoint leaves_loop (leaves_at : Filter -> string -> list (string * FilterLeaf))
  (path : string) (entries : list Filter) (index : nat)
  : list (string * FilterLeaf) :=
  match entries with
  | [] => []
  | f :: entries =>
      leaves_at f (path +:+ "." +:+ index_to_string index) ++
      leaves_loop leaves_at path entries (S index)
  end.

Fixpoint leaves_at (filter : Filter) (path : string)
  : list (string * FilterLeaf) :=
  match filter with
  | Leaf leaf => [(path, leaf)]
  | Node _ filters => leaves_loop leaves_at path filters 0%nat
  end.

(** The texts a leaf holds as its value: none, one, several, or the two
    bounds of a range, a missing bound being the empty text. *)
Definition leaf_values (leaf : FilterLeaf) : list string :=
  match value leaf with
  | None => []
  | Some (SingleValue value) => [value]
  | Some (MultipleValues values) => values
  | Some (Range from to) =>
      [ match from with Some n => number_to_string n | None => "" end;
        match to with Some n => number_to_string n | None => "" end ]
  end.

(** Whether every node of the tree has a child. *)
Fixpoint no_empty_node (filter : Filter) : bool :=
  match filter with
  | Leaf _ => true
  | Node _ filters =>
      negb (bool_decide (filters = [])) && forallb no_empty_node filters
  end.

(** *** The public entry to [createFilter]

    The calls of [newAddFilterAndSelectDataView] and [openFilterBuilder] on
    the page services; a block under [retry] runs once when its calls
    succeed. *)
Inductive PageAction : Type :=
| TestSubjectsClick (selector : string)
| TestSubjectsExistOrFail (selector : string)
| ComboBoxSet (selector value : string)
| Driver (action : Action)
| ClickWhenNotDisabledWithoutRetry (selector : string)
| AwaitGlobalLoadingIndicatorHidden.

Definition openFilterBuilder : list PageAction :=
  [TestSubjectsClick "addFilter"; TestSubjectsExistOrFail "addFilterPopover"].

(** [newAddFilterAndSelectDataView]; [dataViewTitle] is [string | null], and
    [if (dataViewTitle)] fails for [null] and for the empty string. *)
Definition newAddFilterAndSelectDataView (dataViewTitle : option string)
  (filter : Filter) : list PageAction :=
  openFilterBuilder ++
  (match dataViewTitle with
   | Some title =>
       if String.eqb title "" then []
       else [ComboBoxSet "filterIndexPatternsSelect" title]
   | None => []
   end) ++
  (Driver <$> createFilter filter "0") ++
  [ClickWhenNotDisabledWithoutRetry "saveFilter"] ++
  [AwaitGlobalLoadingIndicatorHidden].

(** *** Forms and paths *)

(** A path suffix: nothing, or a dot and more. *)
Definition dotted (rest : string) : Prop :=
  rest = "" ∨ ∃ rest', rest = "." +:+ rest'.

(** The actions on the form at a path or on a form below it. *)
Definition below (path : string) (action : Action) : Prop :=
  ∃ rest, element_form (action_element action) = "filter-" +:+ path +:+ rest
          ∧ dotted rest.

End Filters.

End FilterBar.

(** ** The Lens memory chart (class Memory) *)
Module Memory.

Record DataView : Type := {
  timeFieldName : option string;
  id : option string
}.

Record FormulaFormat : Type := {
  format_id : string;
  decimals : Z
}.

Record FormulaSpec : Type := {
  formula : string;
  format : FormulaFormat
}.

Section Lens.

(** Types of the Lens plugin, defined outside the sources at hand. *)
Context {number Column FormBasedLayer : Type}.

Record LensOptions : Type := { breakdownSize : number }.

Record PersistedIndexPatternLayer : Type := {
  columnOrder : list string;
  columns : gmap string Column
}.

(** [FormulaPublicApi]: the method the chart uses; [None] is the
    [undefined] it returns when the formula does not resolve. *)
Record FormulaPublicApi : Type := {
  insertOrReplaceFormulaColumn :
    string -> FormulaSpec -> PersistedIndexPatternLayer -> DataView ->
    option FormBasedLayer
}.

(** The constructor's three private members. *)
Record Memory : Type := {
  dataView : DataView;
  options : LensOptions;
  formula_api : FormulaPublicApi
}.

(** The helpers and the constant imported from [../utils]. *)
Variable DEFAULT_LAYER_ID : string.
Variable getBreakdownColumn : string -> string -> number -> gmap string Column.
Variable getHistogramColumn : string -> string -> gmap string Column.

Definition BREAKDOWN_COLUMN_NAME : string := "hosts_aggs_breakdown".
Definition HISTOGRAM_COLUMN_NAME : string := "x_date_histogram".

(** [{ ...a, ...b }]: the properties of [b] win. *)
Definition spread (a b : gmap string Column) : gmap string Column := b ∪ a.

Definition baseLayer (this : Memory) : PersistedIndexPatternLayer :=
  {| columnOrder := [BREAKDOWN_COLUMN_NAME; HISTOGRAM_COLUMN_NAME];
     columns :=
       spread
         (getBreakdownColumn BREAKDOWN_COLUMN_NAME "host.name"
            (breakdownSize (options this)))
         (getHistogramColumn HISTOGRAM_COLUMN_NAME
            (default "@timestamp" (timeFieldName (dataView this)))) |}.

Definition memory_usage_formula : FormulaSpec :=
  {| formula :=
       "average(system.memory.actual.used.bytes) / max(system.memory.total)";
     format := {| format_id := "percent"; decimals := 0 |} |}.

(** The [dataLayer] of [getLayers]. *)
Definition dataLayer (this : Memory) : option FormBasedLayer :=
  insertOrReplaceFormulaColumn (formula_api this)
    "y_memory_usage" memory_usage_formula (baseLayer this) (dataView this).

(** [getLayers]: [inl message] is [throw new Error(message)]. *)
Definition getLayers (this : Memory) : string + gmap string FormBasedLayer :=
  match dataLayer this with
  | None => inl "Error generating the data layer for the chart"
  | Some dataLayer => inr {[ DEFAULT_LAYER_ID := dataLayer ]}
  end.

(** *** The other methods of the chart *)

Record XYLayerConfig : Type := {
  layerId : string;
  seriesType : string;
  accessors : list string;
  yConfig : list string;
  layerType : string;
  xAccessor : string;
  splitAccessor : string
}.

Record Extent : Type := {
  mode : string;
  lowerBound : Z;
  upperBound : Z
}.

Record XYArguments : Type := {
  layers : list XYLayerConfig;
  yLeftExtent : Extent
}.

(** [getXYVisualizationState] of [../utils], with the type of its result. *)
Context {XYState : Type}.
Variable getXYVisualizationState : XYArguments -> XYState.

(** The argument [getVisualizationState] hands to the helper. *)
Definition visualizationArguments : XYArguments :=
  {| layers :=
       [ {| layerId := DEFAULT_LAYER_ID;
            seriesType := "line";
            accessors := ["y_memory_usage"];
            yConfig := [];
            layerType := "data";
            xAccessor := HISTOGRAM_COLUMN_NAME;
            splitAccessor := BREAKDOWN_COLUMN_NAME |} ];
     yLeftExtent := {| mode := "custom"; lowerBound := 0; upperBound := 1 |} |}.

Definition getVisualizationState (this : Memory) : XYState :=
  getXYVisualizationState visualizationArguments.

(** An exists filter as [getFilters] writes it; [alias] is [null]. *)
Record ExistsFilter : Type := {
  meta_disabled : bool;
  meta_negate : bool;
  meta_alias : option string;
  meta_index : string;
  meta_key : string;
  meta_value : string;
  meta_type : string;
  query_exists_field : string;
  state_store : string
}.

(** [FilterStateStore.APP_STATE] *)
Variable APP_STATE : string.

Definition getFilters (this : Memory) : list ExistsFilter :=
  [ {| meta_disabled := false;
       meta_negate := false;
       meta_alias := None;
       meta_index := "3be1e71b-4bc5-4462-a314-04539f877a19";
       meta_key := "system.memory.actual.used.bytes";
       meta_value := "exists";
       meta_type := "exists";
       query_exists_field := "system.memory.actual.used.bytes";
       state_store := APP_STATE |};
    {| meta_disabled := false;
       meta_negate := false;
       meta_alias := None;
       meta_index := "3be1e71b-4bc5-4462-a314-04539f877a19";
       meta_key := "system.memory.total";
       meta_value := "exists";
       meta_type := "exists";
       query_exists_field := "system.memory.total";
       state_store := APP_STATE |} ].

Record SavedObjectReference : Type := {
  reference_type : string;
  reference_id : string;
  reference_name : string
}.

Definition getReferences (this : Memory) : list SavedObjectReference :=
  [ {| reference_type := "index-pattern";
       reference_id := default "" (id (dataView this));
       reference_name := "indexpattern-datasource-layer-" +:+ DEFAULT_LAYER_ID |} ].

End Lens.

End Memory.

(** ** Console settings (class Settings) *)
Module Settings.

Record Autocomplete : Type := {
  fields : bool;
  indices : bool;
  templates : bool
}.

Section WithNumbers.

(** JavaScript numbers, with the three operations of the language the class
    applies to them: [String(n)], [parseFloat] of a string and truthiness. *)
Context {number : Type}.
Variable number_to_string : number -> string.
Variable parseFloat_string : string -> number.
Variable number_truthy : number -> bool.

(** A value kept in the storage ([any]). *)
Inductive Any : Type :=
| AUndefined
| ANull
| ABoolean (b : bool)
| ANumber (n : number)
| AString (s : string)
| AObject (o : Autocomplete).

Record DevToolsSettings : Type := {
  fontSize : number;
  wrapMode : bool;
  autocomplete : Autocomplete;
  polling : bool;
  pollInterval : number;
  tripleQuotes : bool;
  historyDisabled : bool
}.

(** What [toJSON] builds: [parseFloat] yields a number and [Boolean] a
    boolean whatever the storage holds, the other members are handed over as
    read. *)
Record SettingsJSON : Type := {
  json_autocomplete : Any;
  json_wrapMode : Any;
  json_tripleQuotes : Any;
  json_fontSize : number;
  json_polling : bool;
  json_historyDisabled : bool;
  json_pollInterval : Any
}.

(** A [DevToolsSettings] value seen as the object [toJSON] returns. *)
Definition to_json_object (s : DevToolsSettings) : SettingsJSON :=
  {| json_autocomplete := AObject (autocomplete s);
     json_wrapMode := ABoolean (wrapMode s);
     json_tripleQuotes := ABoolean (tripleQuotes s);
     json_fontSize := fontSize s;
     json_polling := polling s;
     json_historyDisabled := historyDisabled s;
     json_pollInterval := ANumber (pollInterval s) |}.

(** [String(v)] *)
Definition ToString (v : Any) : string :=
  match v with
  | AUndefined => "undefined"
  | ANull => "null"
  | ABoolean true => "true"
  | ABoolean false => "false"
  | ANumber n => number_to_string n
  | AString s => s
  | AObject _ => "[object Object]"
  end.

(** [parseFloat(v)] converts its argument to a string first. *)
Definition parseFloat (v : Any) : number := parseFloat_string (ToString v).

(** [Boolean(v)] *)
Definition Boolean (v : Any) : bool :=
  match v with
  | AUndefined | ANull => false
  | ABoolean b => b
  | ANumber n => number_truthy n
  | AString s => negb (String.eqb s "")
  | AObject _ => true
  end.

(** Modelled from the spec: the [Storage] class of [./index] is not among the
    sources.  It is the key-value read/write the spec names: [set] binds a
    key, [get] returns the value bound to the key and its second argument
    when there is none. *)
Definition Storage : Type := gmap string Any.

Definition storage_get (key : string) (_default : Any) (storage : Storage) : Any :=
  default _default (storage !! key).

Definition storage_set (key : string) (val : Any) (storage : Storage) : Storage :=
  <[key := val]> storage.

(** Methods of [Settings] run on the storage the instance holds: a method
    takes the storage and returns its result with the storage it leaves. *)
Definition Method (A : Type) : Type := Storage -> A * Storage.

Definition ret {A} (a : A) : Method A := fun storage => (a, storage).

Definition bind {A B} (m : Method A) (k : A -> Method B) : Method B :=
  fun storage => let (a, storage') := m storage in k a storage'.

Definition get (key : string) (_default : Any) : Method Any :=
  fun storage => (storage_get key _default storage, storage).

Definition set (key : string) (val : Any) : Method unit :=
  fun storage => (tt, storage_set key val storage).

Notation "'let*' x ':=' m 'in' k" := (bind m (fun x => k))
  (at level 10, x name, m at level 100, k at level 200).
Notation "m ';;;' k" := (bind m (fun _ => k))
  (at level 100, k at level 200, right associativity).

Record DefaultSettings : Type := {
  default_fontSize : Any;
  default_polling : Any;
  default_pollInterval : Any;
  default_tripleQuotes : Any;
  default_wrapMode : Any;
  default_autocomplete : Any;
  default_historyDisabled : Any
}.

(** The value of an integer literal of the language. *)
Variable number_of_integer : Z -> number.

Definition DEFAULT_SETTINGS : DefaultSettings :=
  {| default_fontSize := ANumber (number_of_integer 14);
     default_polling := ABoolean false;
     default_pollInterval := ANumber (number_of_integer 60000);
     default_tripleQuotes := ABoolean true;
     default_wrapMode := ABoolean true;
     default_autocomplete :=
       AObject {| fields := true; indices := true; templates := true |};
     default_historyDisabled := ABoolean false |}.

Definition getFontSize : Method Any :=
  get "font_size" (default_fontSize DEFAULT_SETTINGS).

Definition setFontSize (size : number) : Method bool :=
  set "font_size" (ANumber size) ;;; ret true.

Definition getWrapMode : Method Any :=
  get "wrap_mode" (default_wrapMode DEFAULT_SETTINGS).

Definition setWrapMode (mode : bool) : Method bool :=
  set "wrap_mode" (ABoolean mode) ;;; ret true.

Definition setTripleQuotes (tripleQuotes : bool) : Method bool :=
  set "triple_quotes" (ABoolean tripleQuotes) ;;; ret true.

Definition getTripleQuotes : Method Any :=
  get "triple_quotes" (default_tripleQuotes DEFAULT_SETTINGS).

Definition getAutocomplete : Method Any :=
  get "autocomplete_settings" (default_autocomplete DEFAULT_SETTINGS).

Definition setAutocomplete (settings : Autocomplete) : Method bool :=
  set "autocomplete_settings" (AObject settings) ;;; ret true.

Definition getPolling : Method Any :=
  get "console_polling" (default_polling DEFAULT_SETTINGS).

Definition setPolling (polling : bool) : Method bool :=
  set "console_polling" (ABoolean polling) ;;; ret true.

Definition setHistoryDisabled (disable : bool) : Method bool :=
  set "disable_history" (ABoolean disable) ;;; ret true.

Definition getHistoryDisabled : Method Any :=
  get "disable_history" (default_historyDisabled DEFAULT_SETTINGS).

Definition setPollInterval (interval : number) : Method unit :=
  set "poll_interval" (ANumber interval).

Definition getPollInterval : Method Any :=
  get "poll_interval" (default_pollInterval DEFAULT_SETTINGS).

(** [toJSON]; the members of the object literal are evaluated in the order
    they are written. *)
Definition toJSON : Method SettingsJSON :=
  let* autocomplete := getAutocomplete in
  let* wrapMode := getWrapMode in
  let* tripleQuotes := getTripleQuotes in
  let* fontSize := getFontSize in
  let* polling := getPolling in
  let* historyDisabled := getHistoryDisabled in
  let* pollInterval := getPollInterval in
  ret {| json_autocomplete := autocomplete;
         json_wrapMode := wrapMode;
         json_tripleQuotes := tripleQuotes;
         json_fontSize := parseFloat fontSize;
         json_polling := Boolean polling;
         json_historyDisabled := Boolean historyDisabled;
         json_pollInterval := pollInterval |}.

Definition updateSettings (s : DevToolsSettings) : Method unit :=
  setFontSize (fontSize s) ;;;
  setWrapMode (wrapMode s) ;;;
  setTripleQuotes (tripleQuotes s) ;;;
  setAutocomplete (autocomplete s) ;;;
  setPolling (polling s) ;;;
  setHistoryDisabled (historyDisabled s) ;;;
  setPollInterval (pollInterval s).

(** The keys the class keeps its settings under. *)
Definition settings_keys : list string :=
  [ "font_size"; "wrap_mode"; "triple_quotes"; "autocomplete_settings";
    "console_polling"; "disable_history"; "poll_interval" ].

End WithNumbers.

End Settings.

(** ** GET /api/guided_onboarding/state *)
Module GuidedOnboarding.

Section Guides.

(** The rest of a [GuideState] (status, steps), defined outside the sources
    at hand. *)
Context {Progress : Type}.

Record GuideState : Type := {
  guideId : string;
  isActive : bool;
  progress : Progress
}.

(** Modelled from the spec: the saved-object store behind [kibanaServer] is
    not among the sources.  It is the document store keyed by a per-guide
    identifier of the spec, restricted to the objects of type
    [guidedSetupSavedObjectsType]: identifiers with their attributes, in the
    order the objects were created. *)
Definition SavedObjects : Type := list (string * GuideState).

(** Modelled from the spec: [savedObjects.create] with [overwrite: true]
    replaces the attributes kept under the identifier, and adds the object
    when the identifier is new. *)
Fixpoint create (id : string) (attributes : GuideState) (store : SavedObjects)
  : SavedObjects :=
  match store with
  | [] => [(id, attributes)]
  | (id', attributes') :: rest =>
      if String.eqb id' id then (id, attributes) :: rest
      else (id', attributes') :: create id attributes rest
  end.

(** Modelled from the spec: [savedObjects.clean] of the guided-setup type. *)
Definition clean (store : SavedObjects) : SavedObjects := [].

(** [createGuides] of the test suite: one [create] per guide, in order, under
    the guide's [guideId]. *)
Definition createGuides (guides : list GuideState) (store : SavedObjects)
  : SavedObjects :=
  foldl (fun store guide => create (guideId guide) guide store) store guides.

(** The two requests of the suite: no query, and [active=true]. *)
Inductive Query : Type := NoQuery | ActiveTrue.

Record Body : Type := { state : list GuideState }.

Record Response : Type := {
  status : nat;
  body : Body
}.

(** Modelled from the spec: the route handler is not among the sources.  A
    read endpoint that answers 200 with [{ state }], the attributes of the
    stored guides, only those with [isActive: true] under [active=true]. *)
Definition getState (query : Query) (store : SavedObjects) : Response :=
  {| status := 200;
     body :=
       {| state :=
            match query with
            | NoQuery => store.*2
            | ActiveTrue => filter (fun guide => isActive guide = true) store.*2
            end |} |}.

(** The last guide of a list that carries the identifier. *)
Fixpoint last_with_id (id : string) (guides : list GuideState)
  : option GuideState :=
  match guides with
  | [] => None
  | guide :: guides =>
      match last_with_id id guides with
      | Some later => Some later
      | None => if String.eqb (guideId guide) id then Some guide else None
      end
  end.

(** The store keeps one object per identifier, under the guide's own
    [guideId]. *)
Definition keyed_by_guideId (store : SavedObjects) : Prop :=
  NoDup store.*1 ∧ ∀ id guide, (id, guide) ∈ store → id = guideId guide.

End Guides.

End GuidedOnboarding.

(** ** The numbers of the language, as decimals

    A number is NaN, an infinity, a zero of either sign, or a decimal
    [± (10 * high + low) * 10^exponent] whose last digit [low] is not zero,
    so that every number is written in one way.  [number_to_string] follows
    [Number::toString] and [parseFloat_string] the grammar of [parseFloat];
    a decimal stands for the double of the language nearest to it, which
    prints as that decimal when it has at most 15 significant digits and lies
    within the range of the doubles. *)
Module JsNumbers.

(** A decimal digit other than zero. *)
Inductive NonZeroDigit : Type := D1 | D2 | D3 | D4 | D5 | D6 | D7 | D8 | D9.

Definition digit_value (d : NonZeroDigit) : N :=
  match d with
  | D1 => 1 | D2 => 2 | D3 => 3 | D4 => 4 | D5 => 5
  | D6 => 6 | D7 => 7 | D8 => 8 | D9 => 9
  end%N.

Inductive number : Type :=
| NaN
| Infinity (negative : bool)
| Zero (negative : bool)
| Decimal (negative : bool) (high : N) (low : NonZeroDigit) (exponent : Z).

(** The significand [10 * high + low] of a decimal. *)
Definition significand (high : N) (low : NonZeroDigit) : N :=
  (10 * high + digit_value low)%N.

(** The number [± m * 10^e]: trailing zeros of [m] go into the exponent;
    [fuel] bounds their number. *)
Fixpoint make_decimal (fuel : nat) (negative : bool) (m : N) (e : Z) : number :=
  match (m mod 10)%N with
  | 1 => Decimal negative (m / 10) D1 e
  | 2 => Decimal negative (m / 10) D2 e
  | 3 => Decimal negative (m / 10) D3 e
  | 4 => Decimal negative (m / 10) D4 e
  | 5 => Decimal negative (m / 10) D5 e
  | 6 => Decimal negative (m / 10) D6 e
  | 7 => Decimal negative (m / 10) D7 e
  | 8 => Decimal negative (m / 10) D8 e
  | 9 => Decimal negative (m / 10) D9 e
  | _ =>
      match fuel with
      | O => Zero negative
      | S fuel => make_decimal fuel negative (m / 10) (e + 1)
      end
  end%N.

Definition make (negative : bool) (m : N) (e : Z) : number :=
  if (m =? 0)%N then Zero negative
  else make_decimal (N.to_nat (N.size m)) negative m e.

(** The value of an integer literal. *)
Definition number_of_integer (z : Z) : number :=
  make (z <? 0)%Z (Z.abs_N z) 0.

Definition digits_of (m : N) : string := NilEmpty.string_of_uint (N.to_uint m).

Fixpoint zeros (n : nat) : string :=
  match n with
  | O => ""
  | S n => String "0" (zeros n)
  end.

(** [Number::toString] of a positive decimal with digits [digits] and
    [n] digits before the decimal point. *)
Definition positive_to_string (digits : string) (n : Z) : string :=
  let k := Z.of_nat (String.length digits) in
  if ((k <=? n) && (n <=? 21))%Z then
    digits +:+ zeros (Z.to_nat (n - k))
  else if ((0 <? n) && (n <=? 21))%Z then
    substring 0 (Z.to_nat n) digits +:+ "." +:+
    substring (Z.to_nat n) (String.length digits - Z.to_nat n) digits
  else if ((-6 <? n) && (n <=? 0))%Z then
    "0." +:+ zeros (Z.to_nat (- n)) +:+ digits
  else
    let exponent :=
      (if (n - 1 <? 0)%Z then "-" else "+") +:+
      digits_of (Z.abs_N (n - 1)) in
    if (k =? 1)%Z then digits +:+ "e" +:+ exponent
    else substring 0 1 digits +:+ "." +:+
         substring 1 (String.length digits - 1) digits +:+ "e" +:+ exponent.

(** [Number::toString] *)
Definition number_to_string (x : number) : string :=
  match x with
  | NaN => "NaN"
  | Infinity negative => (if negative then "-" else "") +:+ "Infinity"
  | Zero _ => "0"
  | Decimal negative high low exponent =>
      let digits := digits_of (significand high low) in
      (if negative then "-" else "") +:+
      positive_to_string digits
        (Z.of_nat (String.length digits) + exponent)
  end.

(** The white space and line terminators [parseFloat] skips, among the
    characters below 256. *)
Definition is_white_space (c : ascii) : bool :=
  let n := nat_of_ascii c in
  ((9 <=? n) && (n <=? 13) || (n =? 32) || (n =? 160))%nat.

Fixpoint trim_start (s : string) : string :=
  match s with
  | String c rest => if is_white_space c then trim_start rest else s
  | EmptyString => s
  end.

Definition digit_of_ascii (c : ascii) : option N :=
  let n := N_of_ascii c in
  if ((48 <=? n) && (n <=? 57))%N then Some (n - 48)%N else None.

(** The longest run of decimal digits at the start of a string: how many
    there are, the number they write, and what follows them. *)
Fixpoint take_digits (s : string) (count : nat) (value : N) : nat * N * string :=
  match s with
  | String c rest =>
      match digit_of_ascii c with
      | Some d => take_digits rest (S count) (10 * value + d)%N
      | None => (count, value, s)
      end
  | EmptyString => (count, value, s)
  end.

(** The exponent part at the start of a string, 0 when there is none. *)
Definition take_exponent (s : string) : Z :=
  match s with
  | String c rest =>
      if (Ascii.eqb c "e" || Ascii.eqb c "E")%bool then
        let '(negative, digits) :=
          match rest with
          | String "-" rest' => (true, rest')
          | String "+" rest' => (false, rest')
          | _ => (false, rest)
          end in
        match take_digits digits 0 0 with
        | (O, _, _) => 0%Z
        | (_, value, _) =>
            if negative then (- Z.of_N value)%Z else Z.of_N value
        end
      else 0%Z
  | EmptyString => 0%Z
  end.

(** The longest prefix that is a decimal literal with or without a point
    and an exponent, as a number; NaN when there is none. *)
Definition parse_decimal (negative : bool) (s : string) : number :=
  let '(int_count, int_value, rest) := take_digits s 0 0 in
  match rest with
  | String "." after_point =>
      let '(count, value, rest') :=
        take_digits after_point int_count int_value in
      match count with
      | O => NaN
      | _ =>
          make negative value
            (take_exponent rest' - Z.of_nat (count - int_count))
      end
  | _ =>
      match int_count with
      | O => NaN
      | _ => make negative int_value (take_exponent rest)
      end
  end.

(** The longest prefix that is an unsigned decimal literal, as a number. *)
Definition parse_unsigned (negative : bool) (s : string) : number :=
  if String.prefix "Infinity" s then Infinity negative
  else parse_decimal negative s.

(** [parseFloat] of a string. *)
Definition parseFloat_string (s : string) : number :=
  match trim_start s with
  | String "-" rest => parse_unsigned true rest
  | String "+" rest => parse_unsigned false rest
  | trimmed => parse_unsigned false trimmed
  end.

(** Whether a number is truthy: all but NaN and the two zeros. *)
Definition number_truthy (x : number) : bool :=
  match x with
  | NaN | Zero _ => false
  | _ => true
  end.

(** *** Texts made of digits *)

Fixpoint all_digits (s : string) : bool :=
  match s with
  | EmptyString => true
  | String c rest =>
      match digit_of_ascii c with
      | Some _ => all_digits rest
      | None => false
      end
  end.

(** The number written by [value] followed by the digits of [s]. *)
Fixpoint digits_value (s : string) (value : N) : N :=
  match s with
  | String c rest =>
      match digit_of_ascii c with
      | Some d => digits_value rest (10 * value + d)%N
      | None => value
      end
  | EmptyString => value
  end.

Definition no_digit_ahead (s : string) : Prop :=
  match s with
  | String c _ => digit_of_ascii c = None
  | EmptyString => True
  end.

Definition starts_with_digit (s : string) : Prop :=
  match s with
  | String c _ => is_Some (digit_of_ascii c)
  | EmptyString => False
  end.

End JsNumbers.

(** ** Concrete inputs the properties are tried on *)
Module Samples.

(** [extension is jpg AND (bytes is between 1000 and _ OR geo.src exists)] *)
Definition nested_filter : @FilterBar.Filter JsNumbers.number :=
  FilterBar.Node FilterBar.AND
    [ FilterBar.Leaf
        {| FilterBar.field := "extension";
           FilterBar.operation := FilterBar.IS;
           FilterBar.value := Some (FilterBar.SingleValue "jpg") |};
      FilterBar.Node FilterBar.OR
        [ FilterBar.Leaf
            {| FilterBar.field := "bytes";
               FilterBar.operation := FilterBar.IS_BETWEEN;
               FilterBar.value :=
                 Some (FilterBar.Range (Some (JsNumbers.number_of_integer 1000))
                         None) |};
          FilterBar.Leaf
            {| FilterBar.field := "geo.src";
               FilterBar.operation := FilterBar.EXISTS;
               FilterBar.value := None |} ] ].

Definition jpg_leaf : @FilterBar.FilterLeaf JsNumbers.number :=
  {| FilterBar.field := "extension";
     FilterBar.operation := FilterBar.IS;
     FilterBar.value := Some (FilterBar.SingleValue "jpg") |}.

Definition exists_leaf : @FilterBar.FilterLeaf JsNumbers.number :=
  {| FilterBar.field := "geo.src";
     FilterBar.operation := FilterBar.DOES_NOT_EXIST;
     FilterBar.value := None |}.

Definition two_leaves : list (@FilterBar.Filter JsNumbers.number) :=
  [FilterBar.Leaf jpg_leaf; FilterBar.Leaf exists_leaf].

(** [extension is one of jpg, png OR bytes is not between _ and 2000] *)
Definition values_filter : @FilterBar.Filter JsNumbers.number :=
  FilterBar.Node FilterBar.OR
    [ FilterBar.Leaf
        {| FilterBar.field := "extension";
           FilterBar.operation := FilterBar.IS_ONE_OF;
           FilterBar.value := Some (FilterBar.MultipleValues ["jpg"; "png"]) |};
      FilterBar.Leaf
        {| FilterBar.field := "bytes";
           FilterBar.operation := FilterBar.IS_NOT_BETWEEN;
           FilterBar.value :=
             Some (FilterBar.Range None
                     (Some (JsNumbers.number_of_integer 2000))) |} ].

Definition range_leaf : @FilterBar.FilterLeaf JsNumbers.number :=
  {| FilterBar.field := "bytes";
     FilterBar.operation := FilterBar.IS_NOT_BETWEEN;
     FilterBar.value :=
       Some (FilterBar.Range (Some (JsNumbers.number_of_integer 500))
               (Some (JsNumbers.number_of_integer 1000))) |}.

(** A chart whose formula API resolves every formula to its base layer. *)
Definition memory_chart
  : @Memory.Memory Z string (@Memory.PersistedIndexPatternLayer string) :=
  {| Memory.dataView :=
       {| Memory.timeFieldName := None; Memory.id := Some "metrics" |};
     Memory.options := {| Memory.breakdownSize := 10%Z |};
     Memory.formula_api :=
       {| Memory.insertOrReplaceFormulaColumn :=
            fun id spec layer dataView =>
              Some {| Memory.columnOrder := Memory.columnOrder layer ++ [id];
                      Memory.columns :=
                        <[id := Memory.formula spec]> (Memory.columns layer) |}
       |} |}.

Definition breakdown_column (name field : string) (size : Z)
  : gmap string string := {[ name := "terms of " +:+ field ]}.

Definition histogram_column (name field : string) : gmap string string :=
  {[ name := "date_histogram of " +:+ field ]}.

Definition console_settings : @Settings.DevToolsSettings JsNumbers.number :=
  {| Settings.fontSize := JsNumbers.number_of_integer 16;
     Settings.wrapMode := false;
     Settings.autocomplete :=
       {| Settings.fields := true; Settings.indices := false;
          Settings.templates := true |};
     Settings.polling := true;
     Settings.pollInterval := JsNumbers.number_of_integer 30000;
     Settings.tripleQuotes := false;
     Settings.historyDisabled := true |}.

(** Settings whose font size is negative zero. *)
Definition negative_zero_settings
  : @Settings.DevToolsSettings JsNumbers.number :=
  {| Settings.fontSize := JsNumbers.Zero true;
     Settings.wrapMode := true;
     Settings.autocomplete :=
       {| Settings.fields := true; Settings.indices := true;
          Settings.templates := true |};
     Settings.polling := false;
     Settings.pollInterval := JsNumbers.number_of_integer 60000;
     Settings.tripleQuotes := true;
     Settings.historyDisabled := false |}.

(** A storage left by an earlier session, with the font size kept as text. *)
Definition used_storage : gmap string (@Settings.Any JsNumbers.number) :=
  {[ "font_size" := Settings.AString "12px";
     "console_polling" := Settings.ANull ]}.

(** Two guides in the manner of the suite's mocks. *)
Definition searchAddDataActiveState : @GuidedOnboarding.GuideState string :=
  {| GuidedOnboarding.guideId := "search";
     GuidedOnboarding.isActive := true;
     GuidedOnboarding.progress := "add_data: active" |}.

Definition securityAddDataInProgressState : @GuidedOnboarding.GuideState string :=
  {| GuidedOnboarding.guideId := "security";
     GuidedOnboarding.isActive := true;
     GuidedOnboarding.progress := "add_data: in_progress" |}.

Definition securityInactiveState : @GuidedOnboarding.GuideState string :=
  {| GuidedOnboarding.guideId := "security";
     GuidedOnboarding.isActive := false;
     GuidedOnboarding.progress := "add_data: in_progress" |}.

(** Texts for the connection states, after the Zeek documentation. *)
Definition translations : Zeek.Translations :=
  {| Zeek.S0 := "Connection attempt seen, no reply";
     Zeek.S1 := "Connection established, not terminated";
     Zeek.S2 := "Connection established and close attempt by originator seen";
     Zeek.S3 := "Connection established and close attempt by responder seen";
     Zeek.SF := "Normal SYN/FIN completion";
     Zeek.REJ := "Connection attempt rejected";
     Zeek.RSTO := "Connection established, originator aborted";
     Zeek.RSTR := "Established, responder aborted";
     Zeek.RSTOS0 := "Originator sent a SYN followed by a RST";
     Zeek.RSTRH := "Responder sent a SYN ACK followed by a RST";
     Zeek.SH := "Originator sent a SYN followed by a FIN";
     Zeek.SHR := "Responder sent a SYN ACK followed by a FIN";
     Zeek.OTH := "No SYN seen, just midstream traffic" |}.

(** The text an engine gives for a native function. *)
Definition native_function_text (member : string) : string :=
  "function " +:+ member +:+ "() { [native code] }".

End Samples.

(** * Properties *)

(** ** Object literals *)

Lemma own_property_None {V} (props : list (string * V)) key :
  own_property props key = None ↔ key ∉ props.*1.
Proof.
  induction props as [|[k v] rest IH]; simpl.
  - split; [intros _; apply not_elem_of_nil | reflexivity].
  - rewrite not_elem_of_cons. simpl. destruct (String.eqb k key) eqn:E.
    + apply String.eqb_eq in E. split; [discriminate | intros [? _]; congruence].
    + apply String.eqb_neq in E. rewrite IH.
      split; [intros; split; [congruence | assumption] | tauto].
Qed.

Lemma own_property_Some {V} (props : list (string * V)) key :
  key ∈ props.*1 → is_Some (own_property props key).
Proof.
  intros H. destruct (own_property props key) eqn:E; [eauto|].
  apply own_property_None in E. contradiction.
Qed.

Lemma own_property_elem_of {V} (props : list (string * V)) key v :
  own_property props key = Some v → v ∈ props.*2.
Proof.
  induction props as [|[k v'] props IH]; cbn; [discriminate|].
  destruct (String.eqb k key).
  - intros [= ->]. left.
  - intros H. right. apply IH, H.
Qed.

(** ** Zeek renderers *)
Section ZeekRenderer.
Import Zeek.

Lemma split_not_nil separator value : split separator value ≠ [].
Proof.
  destruct value as [|c rest]; simpl; [discriminate|].
  destruct (Ascii.eqb c separator); [discriminate|].
  destruct (split separator rest); discriminate.
Qed.

Lemma split_without_separator separator value :
  contains separator value = false → split separator value = [value].
Proof.
  induction value as [|c rest IH]; simpl; [reflexivity|].
  intros H. apply orb_false_iff in H as [Hc Hrest].
  rewrite Hc, (IH Hrest). reflexivity.
Qed.

Lemma split_with_separator separator value :
  contains separator value = true → is_Some (split separator value !! 1%nat).
Proof.
  induction value as [|c rest IH]; simpl; [discriminate|].
  destruct (Ascii.eqb c separator) eqn:Hc; simpl.
  - intros _. pose proof (split_not_nil separator rest).
    destruct (split separator rest); [congruence | eauto].
  - intros H. specialize (IH H).
    destruct (split separator rest) as [|s0 [|s1 tl]]; simpl in *;
      try (destruct IH; discriminate); eauto.
Qed.

Lemma join_cons separator segment segments :
  segments ≠ [] →
  join separator (segment :: segments) =
  segment +:+ String separator (join separator segments).
Proof. destruct segments; [congruence | reflexivity]. Qed.

(** [split] cuts the value at its separators and nowhere else: joining the
    segments gives the value back, and no segment holds a separator. *)
Lemma join_split separator value : join separator (split separator value) = value.
Proof.
  induction value as [|c rest IH]; simpl; [reflexivity|].
  destruct (Ascii.eqb c separator) eqn:Hc.
  - apply Ascii.eqb_eq in Hc as ->.
    rewrite join_cons by apply split_not_nil.
    rewrite IH. reflexivity.
  - pose proof (split_not_nil separator rest) as Hnil.
    destruct (split separator rest) as [|s0 tl]; [congruence|].
    destruct tl as [|s1 tl].
    + simpl in *. congruence.
    + rewrite join_cons in IH |- * by discriminate.
      rewrite <- IH. reflexivity.
Qed.

Lemma split_segments separator value :
  Forall (λ segment, contains separator segment = false) (split separator value).
Proof.
  induction value as [|c rest IH]; simpl.
  - repeat constructor.
  - destruct (Ascii.eqb c separator) eqn:Hc.
    + constructor; [reflexivity | exact IH].
    + destruct (split separator rest) as [|s0 tl].
      * repeat constructor. simpl. rewrite Hc. reflexivity.
      * inversion IH; subst. constructor; [|assumption].
        simpl. rewrite Hc. assumption.
Qed.


Example moduleStringRenderer_trailing_dot : moduleStringRenderer "zeek." = "zeek".
Proof. reflexivity. Qed.

Example moduleStringRenderer_three_segments :
  moduleStringRenderer "zeek.files.sha1" = "files".
Proof. reflexivity. Qed.

End ZeekRenderer.

Section ZeekDictionary.
Import Zeek.

Variable i18n : Translations.
Variable inherited_to_string : string -> string.

Lemma codes_thirteen : length (codes i18n) = 13%nat ∧ NoDup (codes i18n).
Proof.
  split; [reflexivity|].
  apply (bool_decide_unpack _). vm_compute. reflexivity.
Qed.

Lemma append_longer (a b : string) : b ≠ "" → a +:+ b ≠ a.
Proof.
  intros Hb. induction a as [|c a IH]; simpl; [exact Hb|].
  intros H. injection H as H. exact (IH H).
Qed.

(** C7, at a state the dictionary does not list but every object literal
    answers: ["constructor"] is none of the thirteen codes, yet the read
    [zeekConnLogDictionay["constructor"]] is not nullish, so
    [extractStateValue] returns the inherited member instead of [null] and
    [extractStateLink] returns the state followed by a space and the
    member's text instead of the state unchanged. *)
Theorem extractState_inherited_member :
  ("constructor" ∉ codes i18n) ∧
  Zeek.lookup i18n "constructor" = Inherited "constructor" ∧
  Zeek.extractStateValue i18n (JsValue "constructor")
    = JsValue (Inherited "constructor") ∧
  Zeek.extractStateLink i18n inherited_to_string (JsValue "constructor")
    = Some ("constructor " +:+ inherited_to_string "constructor") ∧
  Zeek.extractStateLink i18n inherited_to_string (JsValue "constructor")
    ≠ Some "constructor".
Proof.
  split.
  { apply (bool_decide_unpack _). vm_compute. reflexivity. }
  split; [reflexivity|]. split; [reflexivity|]. split; [reflexivity|].
  change (Zeek.extractStateLink i18n inherited_to_string (JsValue "constructor"))
    with (Some ("constructor" +:+ " " +:+ inherited_to_string "constructor")).
  intros H. injection H as H. revert H. apply append_longer. discriminate.
Qed.

(** Away from the inherited members the two functions do what C7 says. *)
Lemma extractState_null :
  Zeek.extractStateLink i18n inherited_to_string JsNull = None ∧
  Zeek.extractStateLink i18n inherited_to_string JsUndefined = None ∧
  Zeek.extractStateValue i18n JsNull = JsNull ∧
  Zeek.extractStateValue i18n JsUndefined = JsNull.
Proof. repeat split. Qed.

(** X10: for each of the thirteen codes, [extractStateLink] returns the code,
    a space and the code's text, and [extractStateValue] the text. *)
Lemma extractState_code state :
  state ∈ codes i18n →
  ∃ text, own_property (zeekConnLogDictionay i18n) state = Some text ∧
    Zeek.extractStateLink i18n inherited_to_string (JsValue state)
      = Some (state +:+ " " +:+ text) ∧
    Zeek.extractStateValue i18n (JsValue state) = JsValue (Text text).
Proof.
  intros Hin. apply own_property_Some in Hin as [text Htext].
  exists text. unfold Zeek.extractStateLink, Zeek.extractStateValue, Zeek.lookup.
  rewrite Htext. auto.
Qed.

(** X11: a state that is neither one of the codes nor the name of a member
    object literals inherit is returned unchanged by [extractStateLink], and
    [extractStateValue] returns [null] for it. *)
Lemma extractState_other state :
  state ∉ codes i18n → state ∉ Object_prototype_members →
  Zeek.extractStateLink i18n inherited_to_string (JsValue state) = Some state ∧
  Zeek.extractStateValue i18n (JsValue state) = JsNull.
Proof.
  intros H Hproto. apply own_property_None in H.
  unfold Zeek.extractStateLink, Zeek.extractStateValue, Zeek.lookup. rewrite H.
  rewrite bool_decide_eq_false_2 by assumption. auto.
Qed.

End ZeekDictionary.

(** ** The filter-bar service *)
Section FilterBarService.
Import FilterBar.

Context {number : Type}.
Variable number_to_string : number -> string.

Implicit Types (filter f : @Filter number) (leaf : @FilterLeaf number)
  (filters entries : list (@Filter number)).

(** Induction on filter trees, with the hypothesis on every child. *)
Lemma Filter_induction (P : @Filter number → Prop) :
  (∀ leaf, P (Leaf leaf)) →
  (∀ condition filters, Forall P filters → P (Node condition filters)) →
  ∀ filter, P filter.
Proof.
  intros Hleaf Hnode.
  fix IH 1. intros [leaf | condition filters].
  - apply Hleaf.
  - apply Hnode. induction filters as [|f filters IHfilters]; constructor.
    + apply IH.
    + apply IHfilters.
Qed.

Lemma or_clicks_app (t1 t2 : list Action) :
  or_clicks (t1 ++ t2) = (or_clicks t1 + or_clicks t2)%nat.
Proof. unfold or_clicks. rewrite filter_app, length_app. reflexivity. Qed.

Lemma and_clicks_app (t1 t2 : list Action) :
  and_clicks (t1 ++ t2) = (and_clicks t1 + and_clicks t2)%nat.
Proof. unfold and_clicks. rewrite filter_app, length_app. reflexivity. Qed.

Lemma pasteFilterData_no_click leaf path element :
  Click element ∉ pasteFilterData number_to_string leaf path.
Proof.
  unfold pasteFilterData. intros H.
  rewrite elem_of_app in H. destruct H as [H | H].
  { set_unfold. intuition discriminate. }
  destruct (isFilterLeafWithoutValue leaf); [set_solver|].
  destruct (isFilterWithRange leaf).
  { destruct (value leaf) as [[| |]|]; set_unfold; intuition discriminate. }
  rewrite elem_of_app in H. destruct H as [H | H].
  { set_unfold. intuition discriminate. }
  destruct (value leaf) as [[v|vs|]|]; set_unfold; try intuition discriminate.
  destruct H as (v & Hv & _). intuition discriminate.
Qed.

Lemma or_clicks_joiner condition path :
  or_clicks (addConditionalFilter condition path)
  = match condition with OR => 1%nat | AND => 0%nat end.
Proof. destruct condition; reflexivity. Qed.

Lemma and_clicks_joiner condition path :
  and_clicks (addConditionalFilter condition path)
  = match condition with OR => 0%nat | AND => 1%nat end.
Proof. destruct condition; reflexivity. Qed.

Lemma createFilter_loop_trace (create : @Filter number → string → list Action) condition path total entries :
  ∀ index startedAdding,
  startedAdding = negb (index =? 0)%nat →
  createFilter_loop create condition path total entries index startedAdding
  = concat (imap (λ i f,
      (if bool_decide (index + i + 1 < total)%nat then
         addConditionalFilter condition
           (if bool_decide (index + i = 0)%nat then path
            else child_path path (index + i))
       else []) ++ create f (child_path path (index + i))) entries).
Proof.
  induction entries as [|f entries IH]; intros index startedAdding Hstarted;
    [reflexivity|].
  cbn [createFilter_loop]. rewrite imap_cons. cbn [concat].
  rewrite (IH (S index) true) by reflexivity.
  rewrite <- app_assoc. rewrite Nat.add_0_r. f_equal; [|f_equal].
  - destruct (Z.of_nat index <? Z.of_nat total - 1)%Z eqn:E.
    + apply Z.ltb_lt in E. rewrite bool_decide_eq_true_2 by lia.
      subst startedAdding. destruct index; reflexivity.
    + apply Z.ltb_ge in E. rewrite bool_decide_eq_false_2 by lia. reflexivity.
  - f_equal. apply imap_ext. intros i f' _. cbn.
    replace (index + S i)%nat with (S (index + i)) by lia. reflexivity.
Qed.

Lemma createFilter_loop_or_clicks (create : @Filter number → string → list Action) condition path total entries :
  ∀ index startedAdding,
  (index + length entries = total)%nat →
  or_clicks
    (createFilter_loop create condition path total entries index startedAdding)
  = (match condition with OR => length entries - 1 | AND => 0 end
     + sum_list (imap (λ i f, or_clicks (create f (child_path path (index + i))))
                   entries))%nat.
Proof.
  induction entries as [|f entries IH]; intros index startedAdding Htotal.
  { destruct condition; reflexivity. }
  cbn [createFilter_loop]. rewrite imap_cons. cbn [sum_list length] in *.
  rewrite !or_clicks_app. rewrite (IH (S index) true) by lia.
  rewrite Nat.add_0_r.
  rewrite (imap_ext
    ((λ i f, or_clicks (create f (child_path path (index + i)))) ∘ S)
    (λ i f, or_clicks (create f (child_path path (S index + i)))) entries).
  2: { intros i f' _. cbn. replace (index + S i)%nat with (S (index + i)) by lia.
       reflexivity. }
  destruct (Z.of_nat index <? Z.of_nat total - 1)%Z eqn:E.
  - apply Z.ltb_lt in E. rewrite or_clicks_joiner.
    destruct condition; cbn; lia.
  - apply Z.ltb_ge in E. assert (length entries = 0%nat) as -> by lia.
    destruct condition; cbn; lia.
Qed.

Lemma createFilter_loop_and_clicks (create : @Filter number → string → list Action) condition path total entries :
  ∀ index startedAdding,
  (index + length entries = total)%nat →
  and_clicks
    (createFilter_loop create condition path total entries index startedAdding)
  = (match condition with OR => 0 | AND => length entries - 1 end
     + sum_list (imap (λ i f, and_clicks (create f (child_path path (index + i))))
                   entries))%nat.
Proof.
  induction entries as [|f entries IH]; intros index startedAdding Htotal.
  { destruct condition; reflexivity. }
  cbn [createFilter_loop]. rewrite imap_cons. cbn [sum_list length] in *.
  rewrite !and_clicks_app. rewrite (IH (S index) true) by lia.
  rewrite Nat.add_0_r.
  rewrite (imap_ext
    ((λ i f, and_clicks (create f (child_path path (index + i)))) ∘ S)
    (λ i f, and_clicks (create f (child_path path (S index + i)))) entries).
  2: { intros i f' _. cbn. replace (index + S i)%nat with (S (index + i)) by lia.
       reflexivity. }
  destruct (Z.of_nat index <? Z.of_nat total - 1)%Z eqn:E.
  - apply Z.ltb_lt in E. rewrite and_clicks_joiner.
    destruct condition; cbn; lia.
  - apply Z.ltb_ge in E. assert (length entries = 0%nat) as -> by lia.
    destruct condition; cbn; lia.
Qed.

(** C5, as amended: a node with [n] children is handled child by child, in
    list order: child [i] is visited at path [`${path}.${i}`], preceded (for
    every child but the last) by one joiner action, a click on the
    'add-or-filter' button when the node's condition is OR and on the
    'add-and-filter' button otherwise, in the form at [path] for the first
    child and in the form at the child's own path afterwards.  So a node
    with [n >= 1] children clicks its joiner button [n - 1] times, all
    other joiner clicks of the trace being those of its children, and a node
    without children does nothing; a leaf is filled by [pasteFilterData]. *)
Theorem createFilter_joiners_and_children condition filters leaf path :
  let n := length filters in
  let child := λ i : nat, path +:+ "." +:+ index_to_string i in
  let joiner := λ p : string,
    let button :=
      ByTestSubject (TestSubject ("filter-" +:+ p))
        match condition with
        | OR => "add-or-filter"
        | AND => "add-and-filter"
        end in
    [Find (TestSubject ("filter-" +:+ p)); Find button; Click button] in
  createFilter number_to_string (Node condition filters) path
  = concat (imap (λ i f,
      (if bool_decide (i + 1 < n)%nat then
         joiner (if bool_decide (i = 0)%nat then path else child i)
       else []) ++ createFilter number_to_string f (child i)) filters)
  ∧ (filters ≠ [] →
     Z.of_nat (or_clicks (createFilter number_to_string (Node condition filters)
                            path))
     = (match condition with OR => Z.of_nat n - 1 | AND => 0 end
        + Z.of_nat (sum_list (imap (λ i f,
            or_clicks (createFilter number_to_string f (child i))) filters)))%Z
     ∧ Z.of_nat (and_clicks (createFilter number_to_string
                               (Node condition filters) path))
       = (match condition with OR => 0 | AND => Z.of_nat n - 1 end
          + Z.of_nat (sum_list (imap (λ i f,
              and_clicks (createFilter number_to_string f (child i)))
              filters)))%Z)
  ∧ createFilter number_to_string (Node condition []) path = []
  ∧ createFilter number_to_string (Leaf leaf) path
    = pasteFilterData number_to_string leaf path.
Proof.
  intros n child joiner. subst child joiner. cbn [createFilter]. fold n.
  split; [|split; [|split; reflexivity]].
  - rewrite createFilter_loop_trace by reflexivity.
    destruct condition; reflexivity.
  - intros Hfilters.
    assert (1 ≤ n)%nat as Hn
      by (subst n; destruct filters; [congruence | cbn; lia]).
    rewrite createFilter_loop_or_clicks, createFilter_loop_and_clicks
      by reflexivity.
    fold n. rewrite !Nat2Z.inj_add. destruct condition; split; cbn [Nat.add];
      unfold child_path; lia.
Qed.

Lemma createFilter_loop_fuel_Some
  (create_fuel : @Filter number → string → option (list Action))
  (create : @Filter number → string → list Action)
  condition path total entries :
  Forall (λ f, ∀ path, create_fuel f path = Some (create f path)) entries →
  ∀ index startedAdding,
  createFilter_loop_fuel create_fuel condition path total entries index
    startedAdding
  = Some (createFilter_loop create condition path total entries index
            startedAdding).
Proof.
  induction 1 as [|f entries Hf _ IH]; intros index startedAdding;
    [reflexivity|].
  cbn [createFilter_loop_fuel createFilter_loop].
  rewrite Hf, IH. reflexivity.
Qed.

Lemma depth_child condition filters f :
  f ∈ filters → (depth f < depth (Node condition filters))%nat.
Proof.
  cbn [depth]. induction 1 as [f filters | f f' filters _ IH]; cbn [foldr]; lia.
Qed.

(** C6: [createFilter] returns on every filter tree.  The recursion follows
    the tree, a call on a node calling the method on the node's children
    only, so a run that may nest calls more deeply than the tree is deep is
    never cut short and yields the trace of the method. *)
Theorem createFilter_terminates filter :
  ∀ path fuel, (depth filter < fuel)%nat →
  createFilter_fuel number_to_string fuel filter path
  = Some (createFilter number_to_string filter path).
Proof.
  induction filter as [leaf | condition filters IH] using Filter_induction;
    intros path [|fuel] Hfuel; try lia; [reflexivity|].
  cbn [createFilter_fuel createFilter].
  apply createFilter_loop_fuel_Some.
  rewrite Forall_forall in IH |- *. intros f Hf path'.
  apply IH; [assumption|].
  pose proof (depth_child condition filters f Hf). lia.
Qed.

(** C10: [isFilterNode] holds of a filter exactly when it is a node; on a
    leaf of the [FilterLeaf] union, [isFilterLeafWithoutValue] holds exactly
    when the operation is 'exists' or 'does not exist', and
    [isFilterWithRange] exactly when it is 'is between' or
    'is not between'. *)
Theorem filter_type_guards :
  (∀ filter, isFilterNode filter = true
     ↔ ∃ condition filters, filter = Node condition filters) ∧
  (∀ leaf, is_FilterLeaf leaf = true →
     (isFilterLeafWithoutValue leaf = true
        ↔ operation_text (operation leaf) = "exists"
          ∨ operation_text (operation leaf) = "does not exist") ∧
     (isFilterWithRange leaf = true
        ↔ operation_text (operation leaf) = "is between"
          ∨ operation_text (operation leaf) = "is not between")).
Proof.
  split.
  - intros [[fld op [v|]] | condition filters]; cbn;
      (split; [discriminate || eauto | intros (? & ? & ?); congruence]).
  - intros [fld op v] Htyped.
    destruct op, v as [[single | multiple | from to] |]; try discriminate Htyped;
      cbn; (split; split; intros H; try reflexivity; try discriminate H;
            try (left; reflexivity); try (right; reflexivity);
            destruct H; discriminate).
Qed.

End FilterBarService.

Example index_to_string_decimal :
  index_to_string 0 = "0" ∧ index_to_string 12 = "12" ∧
  FilterBar.child_path "0.3" 10 = "0.3.10".
Proof. repeat split. Qed.

(** C5 as first stated fails at a node without children: it has [n = 0]
    children and performs no joiner action, not [n - 1]. *)
Lemma createFilter_empty_node_joiners :
  let node : @FilterBar.Filter JsNumbers.number :=
    FilterBar.Node FilterBar.AND [] in
  let trace := FilterBar.createFilter JsNumbers.number_to_string node "0" in
  trace = [] ∧
  Z.of_nat (FilterBar.or_clicks trace + FilterBar.and_clicks trace)
  ≠ (Z.of_nat (length ([] : list (@FilterBar.Filter JsNumbers.number))) - 1)%Z.
Proof. cbn zeta. split; [reflexivity|]. vm_compute. discriminate. Qed.

Example nested_filter_clicks :
  FilterBar.or_clicks
    (FilterBar.createFilter JsNumbers.number_to_string
       Samples.nested_filter "0") = 1%nat ∧
  FilterBar.and_clicks
    (FilterBar.createFilter JsNumbers.number_to_string
       Samples.nested_filter "0") = 1%nat.
Proof. split; reflexivity. Qed.

(** A guard looks at the object, not at its declared type: an object with
    the operation 'exists' that carries a value is outside the union, and the
    guard does not take it for a leaf without value. *)
Example guard_outside_union :
  FilterBar.isFilterLeafWithoutValue
    {| FilterBar.field := "bytes"; FilterBar.operation := FilterBar.EXISTS;
       FilterBar.value := Some (@FilterBar.SingleValue Z "1") |} = false.
Proof. reflexivity. Qed.

(** ** The Lens memory chart *)
Section MemoryChart.
Import Memory.

Context {number Column FormBasedLayer : Type}.
Variable DEFAULT_LAYER_ID : string.
Variable getBreakdownColumn : string -> string -> number -> gmap string Column.
Variable getHistogramColumn : string -> string -> gmap string Column.

Implicit Types (this : @Memory.Memory number Column FormBasedLayer).

(** C4: [getLayers] throws 'Error generating the data layer for the chart'
    exactly when [formula.insertOrReplaceFormulaColumn], called for the
    memory-usage formula, returns nothing, and throws no other error;
    otherwise it returns the record whose single entry holds the returned
    layer under [DEFAULT_LAYER_ID]. *)
Theorem getLayers_throws_iff this :
  let dataLayer :=
    insertOrReplaceFormulaColumn (formula_api this) "y_memory_usage"
      memory_usage_formula
      (baseLayer getBreakdownColumn getHistogramColumn this) (dataView this) in
  let result :=
    getLayers DEFAULT_LAYER_ID getBreakdownColumn getHistogramColumn this in
  (result = inl "Error generating the data layer for the chart"
     ↔ dataLayer = None) ∧
  (∀ message, result = inl message →
     message = "Error generating the data layer for the chart") ∧
  (∀ layer, dataLayer = Some layer →
     result = inr {[ DEFAULT_LAYER_ID := layer ]} ∧
     ∀ layers, result = inr layers →
       size layers = 1%nat ∧ layers !! DEFAULT_LAYER_ID = Some layer ∧
       ∀ key, key ≠ DEFAULT_LAYER_ID → layers !! key = None).
Proof.
  intros dataLayer result. subst result. unfold getLayers, Memory.dataLayer.
  fold dataLayer. destruct dataLayer as [layer|].
  - split; [split; discriminate|]. split; [discriminate|].
    intros layer' [= <-]. split; [reflexivity|].
    intros layers [= <-]. split; [apply map_size_singleton|].
    split; [apply lookup_singleton_eq|].
    intros key Hkey. apply lookup_singleton_ne. congruence.
  - split; [split; reflexivity|]. split; [congruence | discriminate].
Qed.

End MemoryChart.

(** ** Numbers: reading what was printed *)

Lemma string_length_app (a b : string) :
  String.length (a +:+ b) = (String.length a + String.length b)%nat.
Proof.
  induction a as [|c a IH]; [reflexivity|].
  change (S (String.length (a +:+ b)) = S (String.length a + String.length b)).
  rewrite IH. reflexivity.
Qed.

Lemma string_app_nil_r (a : string) : a +:+ "" = a.
Proof.
  induction a as [|x a IH]; [reflexivity|].
  change (String x (a +:+ "") = String x a). rewrite IH. reflexivity.
Qed.

Section ReadingNumbers.
Import JsNumbers.

Lemma append_cons c (a b : string) : String c a +:+ b = String c (a +:+ b).
Proof. reflexivity. Qed.

Lemma append_nil (b : string) : "" +:+ b = b.
Proof. reflexivity. Qed.

Lemma take_digits_stop s count value :
  no_digit_ahead s → take_digits s count value = (count, value, s).
Proof. destruct s as [|c s]; cbn; [reflexivity|]. intros ->. reflexivity. Qed.

Lemma take_digits_app s rest count value :
  all_digits s = true →
  take_digits (s +:+ rest) count value
  = take_digits rest (count + String.length s) (digits_value s value).
Proof.
  revert count value. induction s as [|c s IH]; intros count value Hs.
  - rewrite append_nil. cbn. f_equal. lia.
  - rewrite append_cons. cbn in *.
    destruct (digit_of_ascii c); [|discriminate].
    rewrite IH by exact Hs. f_equal. lia.
Qed.

Lemma all_digits_app a b :
  all_digits (a +:+ b) = all_digits a && all_digits b.
Proof.
  induction a as [|c a IH]; [reflexivity|].
  rewrite append_cons. cbn. destruct (digit_of_ascii c); [exact IH | reflexivity].
Qed.

Lemma digits_value_app a b value :
  all_digits a = true →
  digits_value (a +:+ b) value = digits_value b (digits_value a value).
Proof.
  revert value. induction a as [|c a IH]; intros value Ha; [reflexivity|].
  rewrite append_cons. cbn in *.
  destruct (digit_of_ascii c); [|discriminate]. apply IH, Ha.
Qed.

Lemma all_digits_string_of_uint d :
  all_digits (NilEmpty.string_of_uint d) = true.
Proof. induction d; cbn; assumption || reflexivity. Qed.

Lemma digits_value_step c d rest value :
  digit_of_ascii c = Some d →
  digits_value (String c rest) value = digits_value rest (10 * value + d)%N.
Proof. intros H. cbn. rewrite H. reflexivity. Qed.

Lemma digits_value_of_uint_acc d acc :
  digits_value (NilEmpty.string_of_uint d) (N.pos acc)
  = N.pos (Pos.of_uint_acc d acc).
Proof.
  revert acc.
  induction d; intros acc; cbn [NilEmpty.string_of_uint Pos.of_uint_acc];
    [reflexivity|..];
    (erewrite digits_value_step by reflexivity);
    rewrite <- IHd; f_equal;
    match goal with
    | |- context [(N_of_ascii ?c - 48)%N] =>
        let v := eval vm_compute in (N_of_ascii c - 48)%N in
        change (N_of_ascii c - 48)%N with v
    end; lia.
Qed.

Lemma digits_value_of_uint d :
  digits_value (NilEmpty.string_of_uint d) 0 = N.of_uint d.
Proof.
  unfold N.of_uint.
  induction d; cbn [NilEmpty.string_of_uint Pos.of_uint];
    [reflexivity|..];
    (erewrite digits_value_step by reflexivity);
    [exact IHd | ..]; apply digits_value_of_uint_acc.
Qed.

Lemma digits_of_value m : digits_value (digits_of m) 0 = m.
Proof.
  unfold digits_of. rewrite digits_value_of_uint.
  apply DecimalN.Unsigned.of_to.
Qed.

Lemma all_digits_digits_of m : all_digits (digits_of m) = true.
Proof. apply all_digits_string_of_uint. Qed.

Lemma all_digits_zeros n : all_digits (zeros n) = true.
Proof. induction n; [reflexivity | exact IHn]. Qed.

Lemma length_zeros n : String.length (zeros n) = n.
Proof. induction n; cbn; congruence. Qed.

Lemma digits_value_zeros n value :
  digits_value (zeros n) value = (value * 10 ^ N.of_nat n)%N.
Proof.
  revert value. induction n as [|n IH]; intros value.
  - cbn. lia.
  - cbn [zeros digits_value]. change (digit_of_ascii "0") with (Some 0%N).
    cbn match. rewrite IH, Nat2N.inj_succ, N.pow_succ_r'. lia.
Qed.


Lemma substring_all s : substring 0 (String.length s) s = s.
Proof. induction s as [|c s IH]; [reflexivity|]. cbn. rewrite IH. reflexivity. Qed.

Lemma substring_split n s :
  (n ≤ String.length s)%nat →
  substring 0 n s +:+ substring n (String.length s - n) s = s ∧
  String.length (substring 0 n s) = n.
Proof.
  revert s. induction n as [|n IH]; intros s Hn.
  - rewrite Nat.sub_0_r, substring_all. destruct s; split; reflexivity.
  - destruct s as [|c s]; [cbn in Hn; lia|]. cbn in Hn.
    destruct (IH s ltac:(lia)) as [Happ Hlen].
    cbn [substring String.length Nat.sub]. rewrite append_cons, Happ, Hlen.
    split; reflexivity.
Qed.

(** *** Normal forms *)

Lemma significand_mod high low :
  (significand high low mod 10 = digit_value low
   ∧ significand high low / 10 = high)%N.
Proof.
  unfold significand.
  assert (digit_value low < 10)%N as Hlow by (destruct low; cbn; lia).
  split; symmetry.
  - apply (N.mod_unique _ _ high); [exact Hlow | reflexivity].
  - apply (N.div_unique _ _ _ (digit_value low)); [exact Hlow | reflexivity].
Qed.

Lemma make_decimal_digit fuel negative high low e :
  make_decimal fuel negative (significand high low) e
  = Decimal negative high low e.
Proof.
  destruct (significand_mod high low) as [Hmod Hdiv].
  destruct fuel; cbn [make_decimal]; rewrite Hmod, Hdiv;
    destruct low; reflexivity.
Qed.

Lemma make_decimal_zeros negative high low j :
  ∀ fuel e, (j ≤ fuel)%nat →
  make_decimal fuel negative (significand high low * 10 ^ N.of_nat j) e
  = Decimal negative high low (e + Z.of_nat j).
Proof.
  induction j as [|j IH]; intros fuel e Hfuel.
  - cbn [N.of_nat]. rewrite N.pow_0_r, N.mul_1_r, Z.add_0_r.
    apply make_decimal_digit.
  - destruct fuel as [|fuel]; [lia|].
    rewrite Nat2N.inj_succ, N.pow_succ_r'.
    set (m := (significand high low * 10 ^ N.of_nat j)%N).
    assert ((significand high low * (10 * 10 ^ N.of_nat j)) mod 10 = 0
            ∧ (significand high low * (10 * 10 ^ N.of_nat j)) / 10 = m)%N
      as [Hmod Hdiv].
    { replace (significand high low * (10 * 10 ^ N.of_nat j))%N
        with (10 * m + 0)%N by (subst m; lia).
      split; symmetry.
      - apply (N.mod_unique _ _ m); [lia | reflexivity].
      - apply (N.div_unique _ _ _ 0%N); [lia | reflexivity]. }
    cbn [make_decimal]. rewrite Hmod, Hdiv. subst m.
    rewrite IH by lia. f_equal. lia.
Qed.

Lemma significand_pos high low : (0 < significand high low)%N.
Proof. unfold significand. destruct low; cbn; lia. Qed.

Lemma make_zeros negative high low j :
  make negative (significand high low * 10 ^ N.of_nat j) 0
  = Decimal negative high low (Z.of_nat j).
Proof.
  unfold make.
  pose proof (significand_pos high low) as Hpos.
  assert (10 ^ N.of_nat j ≠ 0)%N as Hp by (apply N.pow_nonzero; lia).
  set (m := (significand high low * 10 ^ N.of_nat j)%N).
  assert (10 ^ N.of_nat j ≤ m)%N as Hle by (subst m; nia).
  destruct (N.eqb_spec m 0) as [H0|_]; [lia|].
  subst m. rewrite make_decimal_zeros; [reflexivity|].
  pose proof (N.size_gt (significand high low * 10 ^ N.of_nat j)) as Hsize.
  assert (2 ^ N.of_nat j ≤ 10 ^ N.of_nat j)%N as H2
    by (apply N.pow_le_mono_l; lia).
  assert (N.of_nat j < N.size (significand high low * 10 ^ N.of_nat j))%N.
  { apply (N.pow_lt_mono_r_iff 2); lia. }
  lia.
Qed.

Lemma make_significand negative high low e :
  make negative (significand high low) e = Decimal negative high low e.
Proof.
  unfold make. pose proof (significand_pos high low).
  destruct (N.eqb_spec (significand high low) 0); [lia|].
  apply make_decimal_digit.
Qed.


(** *** Reading *)

Lemma digit_cases c d :
  digit_of_ascii c = Some d →
  c ∈ ["0"; "1"; "2"; "3"; "4"; "5"; "6"; "7"; "8"; "9"]%char.
Proof.
  destruct c as [[] [] [] [] [] [] [] []]; cbn; intros [=];
    apply (bool_decide_unpack _); vm_compute; reflexivity.
Qed.

Lemma parseFloat_digits (negative : bool) (s : string) :
  starts_with_digit s →
  parseFloat_string ((if negative then "-" else "") +:+ s)
  = parse_decimal negative s.
Proof.
  destruct s as [|c s]; cbn [starts_with_digit]; [tauto|]. intros [d Hd].
  apply digit_cases in Hd.
  repeat (apply elem_of_cons in Hd as [-> | Hd]);
    [destruct negative; reflexivity ..|].
  apply elem_of_nil in Hd as [].
Qed.

Lemma match_count {A} (n : nat) (a b : A) :
  n ≠ 0%nat → match n with O => a | S _ => b end = b.
Proof. destruct n; [congruence | reflexivity]. Qed.

Lemma starts_with_digit_value s :
  all_digits s = true → digits_value s 0 ≠ 0%N → starts_with_digit s.
Proof.
  destruct s as [|c s]; cbn; [congruence|].
  destruct (digit_of_ascii c); [eauto | discriminate].
Qed.

Lemma digits_of_not_empty m : (0 < String.length (digits_of m))%nat.
Proof.
  unfold digits_of. destruct m as [|p]; [cbn; lia|].
  cbn [N.to_uint]. pose proof (DecimalPos.Unsigned.to_uint_nonnil p) as H.
  destruct (Pos.to_uint p); cbn; [congruence | lia ..].
Qed.

Lemma take_exponent_text (e : Z) :
  take_exponent
    ("e" +:+ (if (e <? 0)%Z then "-" else "+") +:+ digits_of (Z.abs_N e))
  = e.
Proof.
  pose proof (digits_of_not_empty (Z.abs_N e)) as Hlen.
  pose proof (all_digits_digits_of (Z.abs_N e)) as Hall.
  pose proof (digits_of_value (Z.abs_N e)) as Hvalue.
  assert (take_digits (digits_of (Z.abs_N e)) 0 0
          = (String.length (digits_of (Z.abs_N e)), Z.abs_N e, "")) as Htake.
  { rewrite <- (string_app_nil_r (digits_of (Z.abs_N e))) at 1.
    rewrite take_digits_app by exact Hall.
    cbn [take_digits]. rewrite Hvalue. reflexivity. }
  destruct (Z.ltb_spec e 0) as [He|He].
  - change (take_exponent (String "e" (String "-" (digits_of (Z.abs_N e)))) = e).
    cbn [take_exponent]. cbn [Ascii.eqb Bool.eqb orb]. rewrite Htake.
    destruct (String.length (digits_of (Z.abs_N e))); lia.
  - change (take_exponent (String "e" (String "+" (digits_of (Z.abs_N e)))) = e).
    cbn [take_exponent]. cbn [Ascii.eqb Bool.eqb orb]. rewrite Htake.
    destruct (String.length (digits_of (Z.abs_N e))); lia.
Qed.


(** Reading a decimal written in exponent notation gives it back. *)
Lemma parse_decimal_exponent_notation negative high low exponent :
  let digits := digits_of (significand high low) in
  let k := String.length digits in
  let n := (Z.of_nat k + exponent)%Z in
  let text :=
    (if (n - 1 <? 0)%Z then "-" else "+") +:+ digits_of (Z.abs_N (n - 1)) in
  parse_decimal negative
    (if (Z.of_nat k =? 1)%Z then digits +:+ "e" +:+ text
     else substring 0 1 digits +:+ "." +:+
          substring 1 (k - 1) digits +:+ "e" +:+ text)
  = Decimal negative high low exponent.
Proof.
  intros digits k n text.
  pose proof (all_digits_digits_of (significand high low)) as Hall.
  pose proof (digits_of_value (significand high low)) as Hvalue.
  pose proof (digits_of_not_empty (significand high low)) as Hlen.
  fold digits in Hall, Hvalue, Hlen. fold k in Hlen.
  pose proof (take_exponent_text (n - 1)) as Htext. fold text in Htext.
  destruct (Z.eqb_spec (Z.of_nat k) 1) as [Hk|Hk].
  - unfold parse_decimal.
    rewrite take_digits_app by exact Hall.
    rewrite (take_digits_stop ("e" +:+ text)) by reflexivity.
    cbn beta iota zeta. rewrite Htext, Hvalue.
    rewrite match_count by (fold k; lia).
    rewrite make_significand. f_equal. lia.
  - destruct (substring_split 1 digits ltac:(fold k; lia)) as [Happ Hone].
    fold k in Happ.
    set (s1 := substring 0 1 digits) in *.
    set (s2 := substring 1 (k - 1) digits) in *.
    assert (all_digits s1 = true ∧ all_digits s2 = true) as [H1 H2].
    { rewrite <- Happ, all_digits_app in Hall.
      apply andb_true_iff in Hall. exact Hall. }
    assert (String.length s2 = (k - 1)%nat) as Htwo.
    { pose proof (f_equal String.length Happ) as H.
      rewrite string_length_app in H. fold k in H. lia. }
    unfold parse_decimal.
    rewrite take_digits_app by exact H1.
    rewrite (take_digits_stop ("." +:+ _)) by reflexivity.
    cbn beta iota zeta.
    rewrite (append_cons "." ""), append_nil. cbn beta iota.
    rewrite take_digits_app by exact H2.
    rewrite (take_digits_stop ("e" +:+ text)) by reflexivity.
    cbn beta iota zeta.
    rewrite match_count by lia.
    rewrite Htext, <- digits_value_app, Happ, Hvalue by exact H1.
    rewrite make_significand. f_equal. lia.
Qed.

(** Reading the text of a positive decimal gives the decimal back, in each
    of the four notations of [Number::toString]. *)
Lemma parse_decimal_positive_to_string negative high low exponent :
  let digits := digits_of (significand high low) in
  parse_decimal negative
    (positive_to_string digits (Z.of_nat (String.length digits) + exponent))
  = Decimal negative high low exponent.
Proof.
  intros digits.
  pose proof (parse_decimal_exponent_notation negative high low exponent)
    as Hnotation.
  cbn zeta in Hnotation. fold digits in Hnotation.
  pose proof (all_digits_digits_of (significand high low)) as Hall.
  pose proof (digits_of_value (significand high low)) as Hvalue.
  pose proof (digits_of_not_empty (significand high low)) as Hlen.
  fold digits in Hall, Hvalue, Hlen.
  set (k := String.length digits) in *.
  set (n := (Z.of_nat k + exponent)%Z) in *.
  unfold positive_to_string. fold k.
  destruct (Z.leb_spec (Z.of_nat k) n) as [Hkn|Hkn];
    destruct (Z.leb_spec n 21) as [H21|H21]; cbn [andb];
    [ | | destruct (Z.ltb_spec 0 n) as [H0|H0]; cbn [andb] | ].
  - (* the digits, then zeros *)
    unfold parse_decimal.
    rewrite <- (string_app_nil_r (digits +:+ _)).
    rewrite take_digits_app
      by (rewrite all_digits_app, Hall, all_digits_zeros; reflexivity).
    cbn [take_digits].
    rewrite match_count by (rewrite string_length_app; fold k; lia).
    rewrite digits_value_app, Hvalue, digits_value_zeros by exact Hall.
    cbn [take_exponent]. rewrite make_zeros. f_equal. lia.
  - (* exponent notation for a large number *)
    destruct (Z.ltb_spec 0 n) as [H0|H0]; [|lia]. cbn [andb].
    destruct (Z.ltb_spec (-6) n) as [H6|H6]; [|lia].
    destruct (Z.leb_spec n 0) as [Hn0|Hn0]; [lia|]. cbn [andb].
    exact Hnotation.
  - (* a decimal point inside the digits *)
    destruct (substring_split (Z.to_nat n) digits ltac:(fold k; lia))
      as [Happ Hone].
    fold k in Happ.
    set (s1 := substring 0 (Z.to_nat n) digits) in *.
    set (s2 := substring (Z.to_nat n) (k - Z.to_nat n) digits) in *.
    assert (all_digits s1 = true ∧ all_digits s2 = true) as [H1 H2].
    { rewrite <- Happ, all_digits_app in Hall.
      apply andb_true_iff in Hall. exact Hall. }
    assert (String.length s2 = (k - Z.to_nat n)%nat) as Htwo.
    { pose proof (f_equal String.length Happ) as H.
      rewrite string_length_app in H. fold k in H. lia. }
    unfold parse_decimal.
    rewrite take_digits_app by exact H1.
    rewrite (take_digits_stop ("." +:+ _)) by reflexivity.
    cbn beta iota zeta.
    rewrite (append_cons "." ""), append_nil. cbn beta iota.
    rewrite <- (string_app_nil_r s2) at 1.
    rewrite take_digits_app by exact H2.
    cbn [take_digits]. cbn beta iota zeta.
    rewrite match_count by lia.
    rewrite <- digits_value_app, Happ, Hvalue by exact H1.
    cbn [take_exponent]. rewrite make_significand. f_equal. lia.
  - (* zeros after the decimal point, or exponent notation *)
    destruct (Z.ltb_spec (-6) n) as [H6|H6]; cbn [andb].
    + destruct (Z.leb_spec n 0) as [Hn0|Hn0]; [|lia].
      unfold parse_decimal.
      change ("0." +:+ zeros (Z.to_nat (- n)) +:+ digits)
        with (String "0" (String "." (zeros (Z.to_nat (- n)) +:+ digits))).
      cbn [take_digits]. change (digit_of_ascii "0") with (Some 0%N).
      change (digit_of_ascii ".") with (@None N). cbn beta iota zeta.
      rewrite <- (string_app_nil_r (zeros _ +:+ digits)).
      rewrite take_digits_app
        by (rewrite all_digits_app, Hall, all_digits_zeros; reflexivity).
      cbn [take_digits]. cbn beta iota zeta.
      rewrite match_count by lia.
      rewrite digits_value_app, digits_value_zeros by apply all_digits_zeros.
      change ((10 * 0 + 0) * 10 ^ N.of_nat (Z.to_nat (- n)))%N
        with (0 * 10 ^ N.of_nat (Z.to_nat (- n)))%N.
      rewrite N.mul_0_l, Hvalue.
      cbn [take_exponent]. rewrite make_significand. f_equal.
      rewrite string_length_app, length_zeros. fold k. lia.
    + exact Hnotation.
  - destruct (Z.ltb_spec 0 n) as [H0|H0]; [|lia]. cbn [andb].
    destruct (Z.ltb_spec (-6) n) as [H6|H6]; [|lia].
    destruct (Z.leb_spec n 0) as [Hn0|Hn0]; [lia|]. cbn [andb].
    exact Hnotation.
Qed.


Lemma starts_with_digit_app a b :
  all_digits a = true → (0 < String.length a)%nat →
  starts_with_digit (a +:+ b).
Proof.
  destruct a as [|c a]; cbn [String.length]; [lia|]. intros Ha _.
  rewrite append_cons. cbn in *. destruct (digit_of_ascii c); [eauto | discriminate].
Qed.

Lemma positive_to_string_starts_with_digit digits n :
  all_digits digits = true → (0 < String.length digits)%nat →
  starts_with_digit (positive_to_string digits n).
Proof.
  intros Hall Hlen. unfold positive_to_string.
  assert (∀ m, (0 < m ≤ String.length digits)%nat →
               all_digits (substring 0 m digits) = true ∧
               (0 < String.length (substring 0 m digits))%nat) as Hprefix.
  { intros m Hm. destruct (substring_split m digits ltac:(lia)) as [Happ Hm'].
    rewrite <- Happ, all_digits_app in Hall.
    apply andb_true_iff in Hall as [H1 _]. split; [exact H1 | lia]. }
  destruct (Z.leb_spec (Z.of_nat (String.length digits)) n) as [Hkn|Hkn];
    destruct (Z.leb_spec n 21) as [H21|H21]; cbn [andb].
  1: apply starts_with_digit_app; assumption.
  all: destruct (Z.ltb_spec 0 n) as [H0|H0]; cbn [andb].
  all: try (destruct (_ && _);
            [change (is_Some (digit_of_ascii "0")); eexists; reflexivity|];
            destruct (Z.eqb_spec (Z.of_nat (String.length digits)) 1);
            [apply starts_with_digit_app; assumption|];
            apply starts_with_digit_app; apply (Hprefix 1%nat); lia).
  apply starts_with_digit_app; apply (Hprefix (Z.to_nat n)); lia.
Qed.

(** Reading the text of a number gives the number back, negative zero
    apart, whose text is that of zero. *)
Lemma parseFloat_number_to_string x :
  parseFloat_string (number_to_string x) = x ↔ x ≠ Zero true.
Proof.
  destruct x as [|[]|[]|negative high low exponent];
    try (split; [discriminate | reflexivity]).
  - split; [discriminate | congruence].
  - split; [discriminate|]. intros _. cbn [number_to_string].
    rewrite parseFloat_digits.
    + apply parse_decimal_positive_to_string.
    + apply positive_to_string_starts_with_digit;
        [apply all_digits_digits_of | apply digits_of_not_empty].
Qed.

End ReadingNumbers.

(** ** Console settings *)
Section ConsoleSettings.
Import Settings.

Context {number : Type}.
Variable number_to_string : number -> string.
Variable parseFloat_string : string -> number.
Variable number_truthy : number -> bool.
Variable number_of_integer : Z -> number.

Implicit Types (s : @DevToolsSettings number) (storage : gmap string (@Any number)).

Lemma updateSettings_storage s storage :
  (updateSettings s storage).2
  = <["poll_interval" := ANumber (pollInterval s)]>
      (<["disable_history" := ABoolean (historyDisabled s)]>
      (<["console_polling" := ABoolean (polling s)]>
      (<["autocomplete_settings" := AObject (autocomplete s)]>
      (<["triple_quotes" := ABoolean (tripleQuotes s)]>
      (<["wrap_mode" := ABoolean (wrapMode s)]>
      (<["font_size" := ANumber (fontSize s)]> storage)))))).
Proof. reflexivity. Qed.

Lemma toJSON_after_updateSettings s storage :
  (toJSON number_to_string parseFloat_string number_truthy number_of_integer
     (updateSettings s storage).2).1
  = {| json_autocomplete := AObject (autocomplete s);
       json_wrapMode := ABoolean (wrapMode s);
       json_tripleQuotes := ABoolean (tripleQuotes s);
       json_fontSize := parseFloat_string (number_to_string (fontSize s));
       json_polling := polling s;
       json_historyDisabled := historyDisabled s;
       json_pollInterval := ANumber (pollInterval s) |}.
Proof.
  rewrite updateSettings_storage.
  unfold toJSON, bind, ret, getAutocomplete, getWrapMode, getTripleQuotes,
    getFontSize, getPolling, getHistoryDisabled, getPollInterval, get,
    storage_get, parseFloat.
  cbn [fst snd]. unfold Storage. simplify_map_eq. reflexivity.
Qed.

(** On a storage that is a key-value map, [updateSettings(s)] followed by
    [toJSON()] returns the members of [s], whatever the storage held before,
    except that the font size comes back as [parseFloat] reads its text;
    [toJSON] leaves the storage as [updateSettings] left it. *)
Lemma updateSettings_toJSON_members s storage :
  let json :=
    (toJSON number_to_string parseFloat_string number_truthy number_of_integer
       (updateSettings s storage).2).1 in
  json = {| json_autocomplete := AObject (autocomplete s);
            json_wrapMode := ABoolean (wrapMode s);
            json_tripleQuotes := ABoolean (tripleQuotes s);
            json_fontSize := parseFloat_string (number_to_string (fontSize s));
            json_polling := polling s;
            json_historyDisabled := historyDisabled s;
            json_pollInterval := ANumber (pollInterval s) |} ∧
  (toJSON number_to_string parseFloat_string number_truthy number_of_integer
     (updateSettings s storage).2).2
  = (updateSettings s storage).2 ∧
  (json = to_json_object s
     ↔ parseFloat_string (number_to_string (fontSize s)) = fontSize s).
Proof.
  cbn zeta. rewrite toJSON_after_updateSettings.
  split; [reflexivity|]. split; [reflexivity|].
  unfold to_json_object. split.
  - intros H. exact (f_equal json_fontSize H).
  - intros ->. reflexivity.
Qed.

End ConsoleSettings.

Section ConsoleSettingsRoundTrip.
Import Settings.

(** C9, as amended: on a storage that is a key-value map and over the
    numbers of the language, [updateSettings(s)] followed by [toJSON()]
    returns [s], the [Boolean] coercions returning the booleans written and
    [parseFloat] the font size written, unless the font size is negative
    zero, which comes back as zero; [toJSON] leaves the storage as
    [updateSettings] left it.  So the round trip is the identity exactly on
    the settings whose font size is not negative zero. *)
Theorem updateSettings_toJSON
    (s : @DevToolsSettings JsNumbers.number)
    (storage : gmap string (@Any JsNumbers.number)) :
  let toJSON :=
    toJSON JsNumbers.number_to_string JsNumbers.parseFloat_string
      JsNumbers.number_truthy JsNumbers.number_of_integer in
  let stored := (updateSettings s storage).2 in
  (toJSON stored).1
  = {| json_autocomplete := AObject (autocomplete s);
       json_wrapMode := ABoolean (wrapMode s);
       json_tripleQuotes := ABoolean (tripleQuotes s);
       json_fontSize :=
         match fontSize s with
         | JsNumbers.Zero true => JsNumbers.Zero false
         | size => size
         end;
       json_polling := polling s;
       json_historyDisabled := historyDisabled s;
       json_pollInterval := ANumber (pollInterval s) |} ∧
  (toJSON stored).2 = stored ∧
  ((toJSON stored).1 = to_json_object s
     ↔ fontSize s ≠ JsNumbers.Zero true).
Proof.
  cbn zeta.
  destruct (updateSettings_toJSON_members JsNumbers.number_to_string
              JsNumbers.parseFloat_string JsNumbers.number_truthy
              JsNumbers.number_of_integer s storage)
    as (Hjson & Hstorage & Hiff).
  cbn zeta in Hjson, Hiff.
  split; [|split; [exact Hstorage|]].
  - rewrite Hjson. f_equal. generalize (fontSize s). intros size.
    destruct size as [|[]|[]|negative high low exponent]; try reflexivity.
    apply parseFloat_number_to_string. discriminate.
  - rewrite Hiff. apply parseFloat_number_to_string.
Qed.

End ConsoleSettingsRoundTrip.

(** ** The guided-onboarding state endpoint *)
Section GuidedOnboardingState.
Import GuidedOnboarding.

Context {Progress : Type}.

Implicit Types (guide : @GuideState Progress) (guides : list (@GuideState Progress))
  (store : list (string * @GuideState Progress)).

Lemma create_fresh id guide store :
  id ∉ store.*1 → create id guide store = store ++ [(id, guide)].
Proof.
  induction store as [|[id' guide'] store IH]; cbn; [reflexivity|].
  rewrite not_elem_of_cons. intros [Hne Hnotin].
  destruct (String.eqb id' id) eqn:E.
  - apply String.eqb_eq in E. congruence.
  - rewrite IH by assumption. reflexivity.
Qed.

Lemma createGuides_fresh guides :
  ∀ store,
  NoDup (store.*1 ++ (guideId <$> guides)) →
  createGuides guides store = store ++ ((λ guide, (guideId guide, guide)) <$> guides).
Proof.
  unfold createGuides.
  induction guides as [|guide guides IH]; intros store Hdup; cbn [foldl fmap list_fmap].
  - rewrite app_nil_r. reflexivity.
  - apply NoDup_app in Hdup as (Hstore & Hdisjoint & Hguides).
    apply NoDup_cons in Hguides as [Hguide Hguides].
    rewrite create_fresh.
    2: { intros Hin. apply (Hdisjoint _ Hin). left. }
    rewrite IH.
    + rewrite <- app_assoc. reflexivity.
    + rewrite fmap_app. cbn. rewrite <- app_assoc. cbn.
      apply NoDup_app. split; [assumption|]. split.
      * intros id Hin. rewrite not_elem_of_cons. split.
        -- intros ->. apply (Hdisjoint _ Hin). left.
        -- intros Hin'. apply (Hdisjoint _ Hin). right. assumption.
      * apply NoDup_cons. split; assumption.
Qed.

Lemma createGuides_attributes guides :
  NoDup (guideId <$> guides) → (createGuides guides []).*2 = guides.
Proof.
  intros Hdup. rewrite createGuides_fresh by exact Hdup. cbn.
  rewrite <- list_fmap_compose. apply list_fmap_id.
Qed.

(** C1: with [active=true] the endpoint answers 200, and its [state] holds
    exactly the stored guides whose [isActive] is true; for guides created
    under distinct [guideId]s these are the active ones among them, in the
    order they were created. *)
Theorem getState_active store :
  status (getState ActiveTrue store) = 200%nat ∧
  (∀ guide, guide ∈ state (body (getState ActiveTrue store))
     ↔ guide ∈ store.*2 ∧ isActive guide = true) ∧
  (∀ guides, NoDup (guideId <$> guides) →
     getState ActiveTrue (createGuides guides [])
     = {| status := 200;
          body := {| state := filter (λ guide, isActive guide = true) guides |} |}).
Proof.
  split; [reflexivity|]. split.
  - intros guide. cbn. rewrite list_elem_of_filter. tauto.
  - intros guides Hdup. unfold getState.
    rewrite createGuides_attributes by assumption. reflexivity.
Qed.

(** C2: with no guided-setup object in the store, the endpoint answers 200
    with the body [{ state: [] }]. *)
Theorem getState_empty store :
  getState NoQuery ([] : list (string * @GuideState Progress))
  = {| status := 200; body := {| state := [] |} |} ∧
  getState NoQuery (clean store)
  = {| status := 200; body := {| state := [] |} |}.
Proof. split; reflexivity. Qed.

(** C3: without a query the endpoint answers 200 with [{ state }], the
    attributes of all stored guides: every guide kept under an identifier is
    in it, and for guides created under distinct [guideId]s it is the list of
    those guides. *)
Theorem getState_all store :
  getState NoQuery store
  = {| status := 200; body := {| state := store.*2 |} |} ∧
  (∀ id guide, own_property store id = Some guide →
     guide ∈ state (body (getState NoQuery store))) ∧
  (∀ guides, NoDup (guideId <$> guides) →
     getState NoQuery (createGuides guides [])
     = {| status := 200; body := {| state := guides |} |}).
Proof.
  split; [reflexivity|]. split.
  - intros id guide. apply own_property_elem_of.
  - intros guides Hdup. unfold getState.
    rewrite createGuides_attributes by assumption. reflexivity.
Qed.

(** The four cases of the test suite. *)
Section Suite.

Variables searchAddDataActiveState securityAddDataInProgressState
  : @GuideState Progress.
Hypothesis distinct_guides :
  guideId searchAddDataActiveState ≠ guideId securityAddDataInProgressState.
Hypothesis search_active : isActive searchAddDataActiveState = true.

Let ok (state : list (@GuideState Progress)) : Response :=
  {| status := 200; body := {| state := state |} |}.

Lemma suite_all_guides :
  getState NoQuery
    (createGuides [searchAddDataActiveState; securityAddDataInProgressState] [])
  = ok [searchAddDataActiveState; securityAddDataInProgressState].
Proof.
  unfold getState, ok. rewrite createGuides_attributes; [reflexivity|].
  apply NoDup_cons. split; [|apply NoDup_singleton].
  apply not_elem_of_cons. split; [exact distinct_guides | apply not_elem_of_nil].
Qed.

Lemma suite_active_guide :
  getState ActiveTrue
    (createGuides
       [ searchAddDataActiveState;
         {| guideId := guideId securityAddDataInProgressState;
            isActive := false;
            progress := progress securityAddDataInProgressState |} ] [])
  = ok [searchAddDataActiveState].
Proof.
  unfold getState, ok. rewrite createGuides_attributes.
  - rewrite !filter_cons, filter_nil. cbn.
    rewrite decide_True by exact search_active. reflexivity.
  - cbn. apply NoDup_cons. split; [|apply NoDup_singleton].
    apply not_elem_of_cons. split; [exact distinct_guides | apply not_elem_of_nil].
Qed.

Lemma suite_saved_object :
  getState NoQuery
    (create (guideId securityAddDataInProgressState)
       securityAddDataInProgressState [])
  = ok [securityAddDataInProgressState].
Proof. reflexivity. Qed.

Lemma suite_no_saved_object :
  getState NoQuery ([] : list (string * @GuideState Progress)) = ok [].
Proof. reflexivity. Qed.

End Suite.

End GuidedOnboardingState.

(** ** The decimal numbers at work *)

Example parseFloat_reads_a_prefix :
  JsNumbers.parseFloat_string "12px" = JsNumbers.number_of_integer 12 ∧
  JsNumbers.parseFloat_string " +14.50" = JsNumbers.Decimal false 14 JsNumbers.D5 (-1) ∧
  JsNumbers.parseFloat_string "1e3" = JsNumbers.number_of_integer 1000 ∧
  JsNumbers.parseFloat_string "px" = JsNumbers.NaN ∧
  JsNumbers.parseFloat_string "-0" = JsNumbers.Zero true.
Proof. repeat split. Qed.

Example number_to_string_notations :
  JsNumbers.number_to_string (JsNumbers.number_of_integer 60000) = "60000" ∧
  JsNumbers.number_to_string (JsNumbers.number_of_integer (10 ^ 21)) = "1e+21" ∧
  JsNumbers.number_to_string (JsNumbers.Decimal true 14 JsNumbers.D5 (-1))
    = "-14.5" ∧
  JsNumbers.number_to_string (JsNumbers.Decimal false 12 JsNumbers.D5 (-9))
    = "1.25e-7" ∧
  JsNumbers.number_to_string (JsNumbers.Zero true) = "0".
Proof. repeat split. Qed.

(** What the coercions of [toJSON] do to a storage written by other hands:
    the font size kept as text is read as a number, the [null] kept for
    polling as [false]. *)
Example toJSON_coerces :
  let json :=
    (Settings.toJSON JsNumbers.number_to_string
       JsNumbers.parseFloat_string JsNumbers.number_truthy
       JsNumbers.number_of_integer Samples.used_storage).1 in
  Settings.json_fontSize json = JsNumbers.number_of_integer 12 ∧
  Settings.json_polling json = false ∧
  Settings.json_pollInterval json
  = Settings.ANumber (JsNumbers.number_of_integer 60000).
Proof. repeat split. Qed.

(** C9 as first stated fails at a font size of negative zero: its text is
    "0", which [parseFloat] reads as zero, so [toJSON] does not return the
    settings that were written. *)
Lemma updateSettings_toJSON_negative_zero :
  let json :=
    (Settings.toJSON JsNumbers.number_to_string JsNumbers.parseFloat_string
       JsNumbers.number_truthy JsNumbers.number_of_integer
       (Settings.updateSettings Samples.negative_zero_settings ∅).2).1 in
  Settings.fontSize Samples.negative_zero_settings = JsNumbers.Zero true ∧
  Settings.json_fontSize json = JsNumbers.Zero false ∧
  json ≠ Settings.to_json_object Samples.negative_zero_settings.
Proof.
  cbn zeta. split; [reflexivity|]. split; [reflexivity|].
  intros H. apply (f_equal Settings.json_fontSize) in H.
  vm_compute in H. discriminate H.
Qed.

(** ** The properties at the sample inputs *)


Lemma createFilter_joiners_and_children_witness :
  Samples.two_leaves ≠ [] ∧
  FilterBar.createFilter JsNumbers.number_to_string
    (FilterBar.Node FilterBar.OR Samples.two_leaves) "0"
  = [ FilterBar.Find (FilterBar.TestSubject "filter-0");
      FilterBar.Find
        (FilterBar.ByTestSubject (FilterBar.TestSubject "filter-0")
           "add-or-filter");
      FilterBar.Click
        (FilterBar.ByTestSubject (FilterBar.TestSubject "filter-0")
           "add-or-filter") ]
    ++ FilterBar.pasteFilterData JsNumbers.number_to_string
         Samples.jpg_leaf "0.0"
    ++ FilterBar.pasteFilterData JsNumbers.number_to_string
         Samples.exists_leaf "0.1" ∧
  Z.of_nat
    (FilterBar.or_clicks
       (FilterBar.createFilter JsNumbers.number_to_string
          (FilterBar.Node FilterBar.OR Samples.two_leaves) "0"))
  = (2 - 1)%Z.
Proof.
  assert (Samples.two_leaves ≠ []) as Hne by discriminate.
  split; [exact Hne|].
  destruct (createFilter_joiners_and_children JsNumbers.number_to_string
              FilterBar.OR Samples.two_leaves Samples.jpg_leaf "0")
    as (Htrace & Hcount & _).
  split.
  - rewrite Htrace. reflexivity.
  - rewrite (proj1 (Hcount Hne)). reflexivity.
Defined.

Lemma createFilter_terminates_witness :
  (FilterBar.depth Samples.nested_filter < 3)%nat ∧
  FilterBar.createFilter_fuel JsNumbers.number_to_string 3
    Samples.nested_filter "0"
  = Some (FilterBar.createFilter JsNumbers.number_to_string
            Samples.nested_filter "0").
Proof.
  split; [vm_compute; lia|].
  apply createFilter_terminates. vm_compute. lia.
Defined.

Lemma filter_type_guards_witness :
  FilterBar.is_FilterLeaf Samples.range_leaf = true ∧
  FilterBar.isFilterWithRange Samples.range_leaf = true ∧
  FilterBar.isFilterLeafWithoutValue Samples.range_leaf = false.
Proof.
  split; [reflexivity|].
  destruct (@filter_type_guards JsNumbers.number) as [_ H].
  destruct (H Samples.range_leaf eq_refl) as [Hwithout Hrange].
  split.
  - apply Hrange. right. reflexivity.
  - destruct (FilterBar.isFilterLeafWithoutValue Samples.range_leaf) eqn:E;
      [|reflexivity].
    destruct (proj1 Hwithout eq_refl); discriminate.
Defined.

Lemma getLayers_throws_iff_witness :
  Memory.dataLayer Samples.breakdown_column Samples.histogram_column
    Samples.memory_chart
  = Some {| Memory.columnOrder :=
              ["hosts_aggs_breakdown"; "x_date_histogram"; "y_memory_usage"];
            Memory.columns :=
              <["y_memory_usage" :=
                  "average(system.memory.actual.used.bytes) / max(system.memory.total)"]>
                ({[ "x_date_histogram" := "date_histogram of @timestamp" ]}
                 ∪ {[ "hosts_aggs_breakdown" := "terms of host.name" ]}) |} ∧
  ∃ layer,
    Memory.getLayers "layer1" Samples.breakdown_column Samples.histogram_column
      Samples.memory_chart
    = inr {[ "layer1" := layer ]}.
Proof.
  split; [reflexivity|].
  eexists.
  destruct (getLayers_throws_iff "layer1" Samples.breakdown_column
              Samples.histogram_column Samples.memory_chart) as (_ & _ & H).
  apply H. reflexivity.
Defined.

Lemma updateSettings_toJSON_witness :
  Settings.fontSize Samples.console_settings
  = JsNumbers.number_of_integer 16 ∧
  (Settings.toJSON JsNumbers.number_to_string
     JsNumbers.parseFloat_string JsNumbers.number_truthy
     JsNumbers.number_of_integer
     (Settings.updateSettings Samples.console_settings Samples.used_storage).2).1
  = Settings.to_json_object Samples.console_settings.
Proof.
  split; [reflexivity|].
  destruct (updateSettings_toJSON Samples.console_settings
              Samples.used_storage) as (_ & _ & H).
  apply H. discriminate.
Defined.

Lemma getState_active_witness :
  NoDup (GuidedOnboarding.guideId <$>
           [Samples.searchAddDataActiveState; Samples.securityInactiveState]) ∧
  GuidedOnboarding.getState GuidedOnboarding.ActiveTrue
    (GuidedOnboarding.createGuides
       [Samples.searchAddDataActiveState; Samples.securityInactiveState] [])
  = {| GuidedOnboarding.status := 200;
       GuidedOnboarding.body :=
         {| GuidedOnboarding.state := [Samples.searchAddDataActiveState] |} |}.
Proof.
  assert (NoDup (GuidedOnboarding.guideId <$>
           [Samples.searchAddDataActiveState; Samples.securityInactiveState]))
    as Hdup by (apply (bool_decide_unpack _); vm_compute; reflexivity).
  split; [exact Hdup|].
  destruct (@getState_active string []) as (_ & _ & H).
  rewrite (H _ Hdup). reflexivity.
Defined.

Lemma getState_all_witness :
  NoDup (GuidedOnboarding.guideId <$>
           [Samples.searchAddDataActiveState;
            Samples.securityAddDataInProgressState]) ∧
  GuidedOnboarding.getState GuidedOnboarding.NoQuery
    (GuidedOnboarding.createGuides
       [Samples.searchAddDataActiveState;
        Samples.securityAddDataInProgressState] [])
  = {| GuidedOnboarding.status := 200;
       GuidedOnboarding.body :=
         {| GuidedOnboarding.state :=
              [Samples.searchAddDataActiveState;
               Samples.securityAddDataInProgressState] |} |}.
Proof.
  assert (NoDup (GuidedOnboarding.guideId <$>
           [Samples.searchAddDataActiveState;
            Samples.securityAddDataInProgressState]))
    as Hdup by (apply (bool_decide_unpack _); vm_compute; reflexivity).
  split; [exact Hdup|].
  destruct (@getState_all string []) as (_ & _ & H).
  exact (H _ Hdup).
Defined.

(** * Further properties *)

(** ** Zeek renderers and links *)
Section ZeekRenderers.
Import Zeek.

Lemma moduleStringRenderer_without_dot value :
  contains "." value = false → moduleStringRenderer value = value.
Proof.
  intros H. unfold moduleStringRenderer.
  rewrite (split_without_separator _ _ H). reflexivity.
Qed.

(** X7: the module shown never holds a dot, so rendering it again changes
    nothing. *)
Theorem moduleStringRenderer_no_dot value :
  contains "." (moduleStringRenderer value) = false ∧
  moduleStringRenderer (moduleStringRenderer value) = moduleStringRenderer value.
Proof.
  assert (contains "." (moduleStringRenderer value) = false) as Hno.
  { destruct (contains "." value) eqn:Hdot;
      [|rewrite moduleStringRenderer_without_dot; assumption].
    pose proof (split_segments "." value) as Hsegments.
    pose proof (split_with_separator "." value Hdot) as [second' Hsecond'].
    unfold moduleStringRenderer.
    destruct (split "." value) as [|first [|second rest]]; try discriminate.
    inversion Hsegments as [|? ? Hfirst Hrest]; subst.
    inversion Hrest as [|? ? Hsecond _]; subst.
    cbn. destruct (String.eqb second ""); cbn; assumption. }
  split; [exact Hno | apply moduleStringRenderer_without_dot, Hno].
Qed.

Lemma substr_from_start_length n value :
  String.length (substr_from_start n value) = Nat.min n (String.length value).
Proof.
  unfold substr_from_start. revert value.
  induction n as [|n IH]; intros [|c value]; cbn; auto.
Qed.

Lemma substr_from_start_prefix n value :
  ∃ rest, value = substr_from_start n value +:+ rest.
Proof.
  unfold substr_from_start. revert value.
  induction n as [|n IH]; intros [|c value]; cbn.
  - exists "". reflexivity.
  - exists (String c value). reflexivity.
  - exists "". reflexivity.
  - destruct (IH value) as [rest Hrest]. exists rest.
    change (String c value = String c (substring 0 n value +:+ rest)).
    rewrite <- Hrest. reflexivity.
Qed.

Lemma substr_from_start_short n value :
  (String.length value ≤ n)%nat → substr_from_start n value = value.
Proof.
  unfold substr_from_start. revert value.
  induction n as [|n IH]; intros [|c value]; cbn; intros H;
    try reflexivity; try lia.
  f_equal. apply IH. lia.
Qed.

(** X8: the hash renderers show the first seven characters of the hash, all
    of it when it is shorter, between the label and the three dots; the text
    is never longer than 15 (md5) or 16 (sha1) characters. *)
Theorem hash_renderers_abridge value :
  (∃ shown rest, value = shown +:+ rest ∧
     String.length shown = Nat.min 7 (String.length value) ∧
     md5StringRenderer value = "md5: " +:+ shown +:+ "..." ∧
     sha1StringRenderer value = "sha1: " +:+ shown +:+ "...") ∧
  (String.length (md5StringRenderer value) ≤ 15)%nat ∧
  (String.length (sha1StringRenderer value) ≤ 16)%nat ∧
  ((String.length value ≤ 7)%nat →
     md5StringRenderer value = "md5: " +:+ value +:+ "..." ∧
     sha1StringRenderer value = "sha1: " +:+ value +:+ "...").
Proof.
  unfold md5StringRenderer, sha1StringRenderer. split; [|split; [|split]].
  - destruct (substr_from_start_prefix 7 value) as [rest Hrest].
    exists (substr_from_start 7 value), rest.
    split; [exact Hrest|]. split; [apply substr_from_start_length|]. auto.
  - rewrite !string_length_app, substr_from_start_length.
    pose proof (Nat.le_min_l 7 (String.length value)).
    cbn [String.length]. lia.
  - rewrite !string_length_app, substr_from_start_length.
    pose proof (Nat.le_min_l 7 (String.length value)).
    cbn [String.length]. lia.
  - intros H. rewrite (substr_from_start_short 7 value H). auto.
Qed.

End ZeekRenderers.

Section ZeekStateLink.
Import Zeek.

Variable i18n : Translations.
Variable inherited_to_string : string -> string.

(** X9: the state link of a Zeek signature is rendered exactly when the
    state has a value in the dictionary read, and then always as a link to
    the state followed by its text, showing the text: the value is never used
    as the link. *)
Theorem stateLinkElement_always_linked state :
  (stateLinkElement i18n inherited_to_string state = None
     ↔ Zeek.extractStateValue i18n state = JsNull) ∧
  (∀ value, stateLinkElement i18n inherited_to_string state
            ≠ Some (GoogleLinkTo value)) ∧
  (∀ code text, state = JsValue code →
     own_property (zeekConnLogDictionay i18n) code = Some text →
     stateLinkElement i18n inherited_to_string state
     = Some (GoogleLinkWithChildren (code +:+ " " +:+ text) (Text text))) ∧
  (∀ other, state = JsValue other → other ∉ codes i18n →
     other ∉ Object_prototype_members →
     stateLinkElement i18n inherited_to_string state = None).
Proof.
  unfold stateLinkElement, Zeek.extractStateValue, Zeek.extractStateLink.
  split; [|split; [|split]].
  - destruct state as [| |s]; cbn; try tauto.
    destruct (property_not_nullish (Zeek.lookup i18n s)); cbn;
      split; discriminate || reflexivity.
  - intros value. destruct state as [| |s]; cbn; try discriminate.
    destruct (property_not_nullish (Zeek.lookup i18n s)); cbn; discriminate.
  - intros code text -> Htext. unfold Zeek.lookup. rewrite Htext. reflexivity.
  - intros other -> Hcode Hproto. apply own_property_None in Hcode.
    unfold Zeek.lookup. rewrite Hcode.
    rewrite bool_decide_eq_false_2 by assumption. reflexivity.
Qed.

End ZeekStateLink.

(** ** Traces of the filter-bar service *)
Section FilterTraces.
Import FilterBar.

Context {number : Type}.
Variable number_to_string : number -> string.

Implicit Types (filter f : @Filter number) (leaf : @FilterLeaf number)
  (filters entries : list (@Filter number)) (trace : list Action).

Lemma filled_forms_app trace1 trace2 :
  filled_forms (trace1 ++ trace2) = filled_forms trace1 ++ filled_forms trace2.
Proof. apply omap_app. Qed.

Lemma typed_texts_app trace1 trace2 :
  typed_texts (trace1 ++ trace2) = typed_texts trace1 ++ typed_texts trace2.
Proof. apply omap_app. Qed.

Lemma set_elements_app trace1 trace2 :
  set_elements (trace1 ++ trace2) = set_elements trace1 ++ set_elements trace2.
Proof. apply omap_app. Qed.

Lemma enter_keys_app trace1 trace2 :
  enter_keys (trace1 ++ trace2) = (enter_keys trace1 + enter_keys trace2)%nat.
Proof. unfold enter_keys. rewrite omap_app, length_app. reflexivity. Qed.

Lemma joiner_shows_nothing condition path :
  filled_forms (addConditionalFilter condition path) = [] ∧
  typed_texts (addConditionalFilter condition path) = [] ∧
  set_elements (addConditionalFilter condition path) = [] ∧
  enter_keys (addConditionalFilter condition path) = 0%nat.
Proof. destruct condition; repeat split. Qed.

Lemma typing_values_shows (values : list string) element :
  let typing :=
    flat_map (λ value, [TypeText element value; TypeKey element ENTER]) values in
  filled_forms typing = [] ∧ set_elements typing = [] ∧
  typed_texts typing = values ∧ enter_keys typing = length values.
Proof.
  cbn. unfold filled_forms, set_elements, typed_texts, enter_keys.
  induction values as [|v values (IH1 & IH2 & IH3 & IH4)]; [repeat split|].
  cbn. rewrite IH1, IH2, IH3, IH4. repeat split.
Qed.

(** What one call of [pasteFilterData] shows. *)
Lemma pasteFilterData_shows leaf path :
  filled_forms (pasteFilterData number_to_string leaf path)
    = [("filter-" +:+ path, field leaf)] ∧
  set_elements (pasteFilterData number_to_string leaf path)
    = [ (ByTestSubject (TestSubject ("filter-" +:+ path))
           "filterFieldSuggestionList", field leaf);
        (ByTestSubject (TestSubject ("filter-" +:+ path)) "filterOperatorList",
         operation_text (operation leaf)) ] ∧
  typed_texts (pasteFilterData number_to_string leaf path)
    = leaf_values number_to_string leaf ∧
  enter_keys (pasteFilterData number_to_string leaf path)
    = match value leaf with
      | Some (MultipleValues values) => length values
      | _ => 0%nat
      end.
Proof.
  destruct leaf as [fld op [[v | vs | from to] |]];
    unfold pasteFilterData, leaf_values; cbn -[flat_map];
    try (repeat split; reflexivity).
  destruct (typing_values_shows vs
              (ByTagName (ByTestSubject (filterForm path) "filterParams") "input"))
    as (H1 & H2 & H3 & H4).
  unfold filled_forms, set_elements, typed_texts, enter_keys in *.
  cbn -[flat_map]. rewrite H1, H2, H3, H4. repeat split.
Qed.


(** An observation of traces that runs through concatenation and sees
    nothing in a joiner is, on the trace of [createFilter], what it sees in
    the calls of [pasteFilterData] on the leaves, from left to right. *)
Section Observation.

Context {B : Type}.
Variable observe : list Action → list B.
Hypothesis observe_app :
  ∀ trace1 trace2, observe (trace1 ++ trace2) = observe trace1 ++ observe trace2.
Hypothesis observe_joiner :
  ∀ condition path, observe (addConditionalFilter condition path) = [].

Lemma observe_nil : observe [] = [].
Proof.
  pose proof (observe_app [] []) as H. cbn in H.
  destruct (observe []); [reflexivity|].
  apply (f_equal length) in H. rewrite length_app in H. cbn in H. lia.
Qed.

Lemma observe_loop condition path total entries :
  Forall (λ f, ∀ path,
            observe (createFilter number_to_string f path)
            = flat_map (λ '(p, l), observe (pasteFilterData number_to_string l p))
                (leaves_at f path)) entries →
  ∀ index startedAdding,
  observe (createFilter_loop (createFilter number_to_string) condition path
             total entries index startedAdding)
  = flat_map (λ '(p, l), observe (pasteFilterData number_to_string l p))
      (leaves_loop leaves_at path entries index).
Proof.
  induction 1 as [|f entries Hf _ IH]; intros index startedAdding.
  { apply observe_nil. }
  cbn [createFilter_loop leaves_loop].
  rewrite !observe_app, Hf, IH, flat_map_app.
  destruct (Z.of_nat index <? Z.of_nat total - 1)%Z;
    [rewrite observe_joiner | rewrite observe_nil]; reflexivity.
Qed.

Lemma observe_createFilter filter :
  ∀ path,
  observe (createFilter number_to_string filter path)
  = flat_map (λ '(p, l), observe (pasteFilterData number_to_string l p))
      (leaves_at filter path).
Proof.
  induction filter as [leaf | condition filters IH] using Filter_induction;
    intros path.
  - cbn. rewrite app_nil_r. reflexivity.
  - cbn [createFilter leaves_at]. apply observe_loop, IH.
Qed.

End Observation.

Lemma filled_forms_createFilter filter path :
  filled_forms (createFilter number_to_string filter path)
  = (λ '(p, l), ("filter-" +:+ p, field l)) <$> leaves_at filter path.
Proof.
  rewrite (observe_createFilter filled_forms filled_forms_app
             (λ c p, proj1 (joiner_shows_nothing c p))).
  induction (leaves_at filter path) as [|[p l] leaves IH]; [reflexivity|].
  cbn [flat_map fmap list_fmap].
  rewrite (proj1 (pasteFilterData_shows l p)). cbn. f_equal. exact IH.
Qed.

(** X1: the calls of [comboBox.setElement] during [createFilter] are, leaf
    by leaf from left to right, one on the field input of the form at the
    leaf's path with the leaf's field, then one on the operator input of the
    same form with the leaf's operation, and no others. *)
Theorem createFilter_fills_leaves filter path :
  set_elements (createFilter number_to_string filter path)
  = flat_map
      (λ '(p, l),
         [ (ByTestSubject (TestSubject ("filter-" +:+ p))
              "filterFieldSuggestionList", field l);
           (ByTestSubject (TestSubject ("filter-" +:+ p)) "filterOperatorList",
            operation_text (operation l)) ])
      (leaves_at filter path).
Proof.
  rewrite (observe_createFilter set_elements set_elements_app
             (λ c p, proj1 (proj2 (proj2 (joiner_shows_nothing c p))))).
  induction (leaves_at filter path) as [|[p l] leaves IH]; [reflexivity|].
  cbn [flat_map].
  rewrite (proj1 (proj2 (pasteFilterData_shows l p))), IH. reflexivity.
Qed.

(** X2: the texts typed are the values of the leaves, leaf by leaf: nothing
    for a leaf without value, the value, each of several values, or the two
    bounds of a range, an undefined bound as the empty text; and ENTER is
    pressed once per value of a leaf with several values. *)
Theorem createFilter_types_values filter path :
  typed_texts (createFilter number_to_string filter path)
  = flat_map
      (λ '(p, l),
         match value l with
         | None => []
         | Some (SingleValue value) => [value]
         | Some (MultipleValues values) => values
         | Some (Range from to) =>
             [ match from with Some n => number_to_string n | None => "" end;
               match to with Some n => number_to_string n | None => "" end ]
         end)
      (leaves_at filter path)
  ∧ enter_keys (createFilter number_to_string filter path)
    = sum_list ((λ '(p, l), match value l with
                            | Some (MultipleValues values) => length values
                            | _ => 0%nat
                            end) <$> leaves_at filter path).
Proof.
  split.
  - rewrite (observe_createFilter typed_texts typed_texts_app
               (λ c p, proj1 (proj2 (joiner_shows_nothing c p)))).
    induction (leaves_at filter path) as [|[p l] leaves IH]; [reflexivity|].
    cbn [flat_map].
    rewrite (proj1 (proj2 (proj2 (pasteFilterData_shows l p)))), IH.
    reflexivity.
  - unfold enter_keys.
    rewrite (observe_createFilter (omap enter_key) (omap_app enter_key)).
    2: { intros [] p; reflexivity. }
    induction (leaves_at filter path) as [|[p l] leaves IH]; [reflexivity|].
    cbn [flat_map fmap list_fmap sum_list]. rewrite length_app, IH.
    f_equal. apply (proj2 (proj2 (proj2 (pasteFilterData_shows l p)))).
Qed.


(** *** Rows of the builder *)

Lemma no_click_no_joiner trace :
  (∀ element, Click element ∉ trace) →
  or_clicks trace = 0%nat ∧ and_clicks trace = 0%nat.
Proof.
  intros Hno. unfold or_clicks, and_clicks.
  induction trace as [|a trace IH]; [split; reflexivity|].
  assert (∀ element, Click element ∉ trace) as Htail
    by (intros e He; apply (Hno e); right; exact He).
  destruct (IH Htail) as [IHor IHand].
  destruct a as [e | e | e t | e t | e k];
    try (rewrite !filter_cons; cbn; auto).
  exfalso. apply (Hno e). left.
Qed.

Lemma joiner_one_click condition path :
  (or_clicks (addConditionalFilter condition path)
   + and_clicks (addConditionalFilter condition path) = 1)%nat.
Proof. destruct condition; reflexivity. Qed.

Lemma createFilter_loop_rows condition path total entries :
  Forall (λ f, ∀ path,
            (or_clicks (createFilter number_to_string f path)
             + and_clicks (createFilter number_to_string f path) + 1
             = length (leaves_at f path))%nat) entries →
  ∀ index startedAdding,
  (index + length entries = total)%nat →
  (or_clicks (createFilter_loop (createFilter number_to_string) condition path
                total entries index startedAdding)
   + and_clicks (createFilter_loop (createFilter number_to_string) condition
                   path total entries index startedAdding)
   + (if entries is [] then 0 else 1)
   = length (leaves_loop leaves_at path entries index))%nat.
Proof.
  induction 1 as [|f entries Hf _ IH]; intros index startedAdding Htotal;
    [reflexivity|].
  cbn [createFilter_loop leaves_loop]. cbn [length] in Htotal.
  rewrite !or_clicks_app, !and_clicks_app, length_app.
  specialize (IH (S index) true ltac:(lia)).
  specialize (Hf (child_path path index)).
  destruct (Z.of_nat index <? Z.of_nat total - 1)%Z eqn:E.
  - apply Z.ltb_lt in E.
    pose proof (joiner_one_click condition
      (if startedAdding then child_path path index else path)).
    unfold child_path in *.
    destruct entries; [cbn in Htotal; lia|]. lia.
  - apply Z.ltb_ge in E. destruct entries; [|cbn in Htotal; lia].
    unfold child_path in *. cbn in *. lia.
Qed.

(** X3: on a tree in which every node has a child, the joiner buttons are
    clicked once less than there are leaves: with the row the builder opens
    with, one row per leaf. *)
Theorem createFilter_rows filter :
  no_empty_node filter = true →
  ∀ path,
  (or_clicks (createFilter number_to_string filter path)
   + and_clicks (createFilter number_to_string filter path) + 1
   = length (leaves_at filter path))%nat.
Proof.
  induction filter as [leaf | condition filters IH] using Filter_induction;
    intros Hne path.
  - cbn [createFilter leaves_at].
    destruct (no_click_no_joiner (pasteFilterData number_to_string leaf path))
      as [-> ->]; [|reflexivity].
    intros element. apply pasteFilterData_no_click.
  - cbn in Hne. apply andb_true_iff in Hne as [Hnil Hall].
    cbn [createFilter leaves_at].
    rewrite <- (createFilter_loop_rows condition path (length filters) filters)
      with (index := 0%nat) (startedAdding := false).
    + destruct filters; [discriminate | reflexivity].
    + rewrite Forall_forall in IH |- *. intros f Hf. apply IH; [exact Hf|].
      rewrite forallb_forall in Hall. apply Hall.
      apply list_elem_of_In. exact Hf.
    + reflexivity.
Qed.

(** *** Degenerate nodes *)

(** A node without children does nothing, and a node with one child
    does what the child does one level down, with no joiner. *)
Theorem createFilter_degenerate_nodes condition f path :
  createFilter number_to_string (Node condition []) path = [] ∧
  createFilter number_to_string (Node condition [f]) path
  = createFilter number_to_string f (child_path path 0).
Proof. split; [reflexivity|]. cbn. apply app_nil_r. Qed.


(** *** Paths *)

Lemma string_app_assoc (a b c : string) : (a +:+ b) +:+ c = a +:+ (b +:+ c).
Proof.
  induction a as [|x a IH]; [reflexivity|].
  change (String x ((a +:+ b) +:+ c) = String x (a +:+ (b +:+ c))).
  rewrite IH. reflexivity.
Qed.

Lemma string_app_inv_head (a x y : string) : a +:+ x = a +:+ y → x = y.
Proof.
  induction a as [|c a IH]; [auto|].
  change (String c (a +:+ x) = String c (a +:+ y) → x = y).
  intros [= H]. auto.
Qed.

Lemma index_to_string_no_dot index :
  Zeek.contains "." (index_to_string index) = false.
Proof.
  unfold index_to_string. generalize (Nat.to_uint index) as d.
  induction d; cbn; auto.
Qed.

Lemma index_to_string_inj i j : index_to_string i = index_to_string j → i = j.
Proof.
  unfold index_to_string. intros H. apply DecimalNat.Unsigned.to_uint_inj.
  apply (f_equal NilEmpty.uint_of_string) in H.
  rewrite !NilEmpty.usu in H. congruence.
Qed.

(** Two dot-free heads followed by path suffixes agree only if the heads
    do. *)
Lemma dot_free_head (a b r1 r2 : string) :
  Zeek.contains "." a = false → Zeek.contains "." b = false →
  dotted r1 → dotted r2 → a +:+ r1 = b +:+ r2 → a = b.
Proof.
  revert b. induction a as [|x a IH]; intros [|y b] Ha Hb Hr1 Hr2 H; cbn in *.
  - reflexivity.
  - destruct Hr1 as [-> | [r ->]]; [discriminate|].
    injection H as <- _. cbn in Hb. discriminate.
  - destruct Hr2 as [-> | [r ->]]; [discriminate|].
    injection H as -> _. cbn in Ha. discriminate.
  - injection H as -> H. apply orb_false_iff in Ha as [_ Ha].
    apply orb_false_iff in Hb as [_ Hb]. f_equal. eauto.
Qed.

Lemma child_path_app path index rest :
  child_path path index +:+ rest
  = path +:+ "." +:+ index_to_string index +:+ rest.
Proof.
  unfold child_path. rewrite string_app_assoc. cbn.
  rewrite string_app_assoc. reflexivity.
Qed.

Lemma dotted_child index rest :
  dotted ("." +:+ index_to_string index +:+ rest).
Proof. right. eauto. Qed.

(** Where the leaves of a tree lie: at the path or below it. *)
Lemma leaves_loop_paths path entries :
  Forall (λ f, ∀ path p l, (p, l) ∈ leaves_at f path →
            ∃ rest, p = path +:+ rest ∧ dotted rest) entries →
  ∀ index p l, (p, l) ∈ leaves_loop leaves_at path entries index →
  ∃ j rest, (index ≤ j)%nat ∧ p = child_path path j +:+ rest ∧ dotted rest.
Proof.
  induction 1 as [|f entries Hf _ IH]; intros index p l Hin; cbn in Hin.
  { apply elem_of_nil in Hin as []. }
  apply elem_of_app in Hin as [Hin | Hin].
  - apply Hf in Hin as (rest & -> & Hrest). exists index, rest. auto.
  - apply IH in Hin as (j & rest & Hj & -> & Hrest).
    exists j, rest. split; [lia | auto].
Qed.

Lemma leaves_at_paths filter :
  ∀ path p l, (p, l) ∈ leaves_at filter path →
  ∃ rest, p = path +:+ rest ∧ dotted rest.
Proof.
  induction filter as [leaf | condition filters IH] using Filter_induction;
    intros path p l Hin.
  - cbn in Hin. apply list_elem_of_singleton in Hin as [= -> ->].
    exists "". split; [symmetry; apply string_app_nil_r | left; reflexivity].
  - cbn [leaves_at] in Hin.
    apply (leaves_loop_paths path filters IH) in Hin
      as (j & rest & _ & -> & Hrest).
    exists ("." +:+ index_to_string j +:+ rest).
    split; [apply child_path_app | apply dotted_child].
Qed.

Lemma child_paths_apart path i j r1 r2 :
  dotted r1 → dotted r2 →
  child_path path i +:+ r1 = child_path path j +:+ r2 → i = j.
Proof.
  intros Hr1 Hr2. rewrite !child_path_app. intros H.
  apply string_app_inv_head in H. cbn in H. injection H as H.
  apply index_to_string_inj.
  apply (dot_free_head _ _ r1 r2); auto using index_to_string_no_dot.
Qed.

Lemma leaves_loop_NoDup path entries :
  Forall (λ f, ∀ path, NoDup (leaves_at f path).*1) entries →
  ∀ index, NoDup (leaves_loop leaves_at path entries index).*1.
Proof.
  induction 1 as [|f entries Hf Hentries IH]; intros index; cbn.
  { constructor. }
  rewrite fmap_app. apply NoDup_app. split; [apply Hf|]. split; [|apply IH].
  intros p Hp Hp'.
  apply list_elem_of_fmap in Hp as ([p1 l1] & -> & Hp).
  apply list_elem_of_fmap in Hp' as ([p2 l2] & Heq & Hp'). cbn in Heq. subst p2.
  apply leaves_at_paths in Hp as (r1 & -> & Hr1).
  assert (Forall (λ f, ∀ path p l, (p, l) ∈ leaves_at f path →
            ∃ rest, p = path +:+ rest ∧ dotted rest) entries) as Hpaths.
  { apply Forall_forall. intros f' _ path' p' l'. apply leaves_at_paths. }
  destruct (leaves_loop_paths path entries Hpaths _ _ _ Hp')
    as (j & r2 & Hj & Heq & Hr2).
  apply child_paths_apart in Heq; [lia | assumption | assumption].
Qed.

Lemma leaves_at_NoDup filter : ∀ path, NoDup (leaves_at filter path).*1.
Proof.
  induction filter as [leaf | condition filters IH] using Filter_induction;
    intros path.
  - cbn. apply NoDup_singleton.
  - cbn [leaves_at]. apply leaves_loop_NoDup, IH.
Qed.

(** X4: no form is filled twice: the forms whose field input is set during
    [createFilter] are pairwise distinct. *)
Theorem createFilter_fills_distinct_forms filter path :
  NoDup (filled_forms (createFilter number_to_string filter path)).*1.
Proof.
  rewrite filled_forms_createFilter.
  assert (∀ leaves : list (string * @FilterLeaf number),
            ((λ '(p, l), ("filter-" +:+ p, field l)) <$> leaves).*1
            = (λ p, "filter-" +:+ p) <$> leaves.*1) as ->.
  { induction leaves as [|[p l] leaves IH]; [reflexivity|].
    cbn. f_equal. exact IH. }
  apply NoDup_fmap_2; [|apply leaves_at_NoDup].
  intros p q H. exact (string_app_inv_head _ _ _ H).
Qed.


Lemma below_here path action :
  element_form (action_element action) = "filter-" +:+ path → below path action.
Proof.
  intros H. exists "". rewrite string_app_nil_r. split; [exact H | left; reflexivity].
Qed.

Lemma below_child path index action :
  below (child_path path index) action → below path action.
Proof.
  intros (rest & H & Hrest).
  exists ("." +:+ index_to_string index +:+ rest).
  rewrite H, child_path_app. split; [reflexivity | apply dotted_child].
Qed.

Ltac elem_cases H :=
  repeat (apply elem_of_cons in H as [-> | H]; [reflexivity|]);
  try (apply elem_of_nil in H as []).

Lemma joiner_form condition path action :
  action ∈ addConditionalFilter condition path →
  element_form (action_element action) = "filter-" +:+ path.
Proof.
  destruct condition; unfold addConditionalFilter, addAndFilter, addOrFilter;
    intros H; elem_cases H.
Qed.

Lemma pasteFilterData_form leaf path action :
  action ∈ pasteFilterData number_to_string leaf path →
  element_form (action_element action) = "filter-" +:+ path.
Proof.
  unfold pasteFilterData. intros H.
  rewrite elem_of_app in H. destruct H as [H | H]; [elem_cases H|].
  destruct (isFilterLeafWithoutValue leaf); [elem_cases H|].
  destruct (isFilterWithRange leaf).
  { destruct (value leaf) as [[| |]|]; elem_cases H. }
  rewrite elem_of_app in H. destruct H as [H | H]; [elem_cases H|].
  destruct (value leaf) as [[v|vs|]|]; try elem_cases H.
  apply list_elem_of_In, in_flat_map in H as (v & _ & H).
  apply list_elem_of_In in H. elem_cases H.
Qed.

Lemma createFilter_loop_below condition path total entries :
  Forall (λ f, ∀ path action,
            action ∈ createFilter number_to_string f path → below path action)
    entries →
  ∀ index startedAdding action,
  action ∈ createFilter_loop (createFilter number_to_string) condition path
             total entries index startedAdding →
  below path action.
Proof.
  induction 1 as [|f entries Hf _ IH]; intros index startedAdding action Hin;
    cbn [createFilter_loop] in Hin.
  { apply elem_of_nil in Hin as []. }
  apply elem_of_app in Hin as [Hin | Hin];
    [|apply elem_of_app in Hin as [Hin | Hin]].
  - destruct (Z.of_nat index <? Z.of_nat total - 1)%Z;
      [|apply elem_of_nil in Hin as []].
    apply joiner_form in Hin. destruct startedAdding.
    + apply (below_child path index), below_here, Hin.
    + apply below_here, Hin.
  - apply (below_child path index), Hf, Hin.
  - apply (IH _ _ _ Hin).
Qed.

(** X5: [createFilter] stays in its part of the builder: every element it
    looks up, clicks or types into lies in the form at its path or in a form
    below it. *)
Theorem createFilter_stays_below filter :
  ∀ path action,
  action ∈ createFilter number_to_string filter path →
  ∃ rest, element_form (action_element action) = "filter-" +:+ path +:+ rest
          ∧ dotted rest.
Proof.
  induction filter as [leaf | condition filters IH] using Filter_induction;
    intros path action Hin.
  - apply below_here, (pasteFilterData_form leaf), Hin.
  - cbn [createFilter] in Hin.
    apply (createFilter_loop_below condition path _ filters IH _ _ _ Hin).
Qed.


End FilterTraces.

(** ** Console settings and their storage *)
Section SettingsStorage.
Import Settings.

Context {number : Type}.
Variable number_to_string : number -> string.
Variable parseFloat_string : string -> number.
Variable number_truthy : number -> bool.
Variable number_of_integer : Z -> number.

Implicit Types (s : @DevToolsSettings number)
  (storage : gmap string (@Any number)).

Ltac unfold_methods :=
  unfold toJSON, updateSettings, setFontSize, setWrapMode, setTripleQuotes,
    setAutocomplete, setPolling, setHistoryDisabled, setPollInterval, bind, ret,
    getAutocomplete, getWrapMode, getTripleQuotes, getFontSize, getPolling,
    getHistoryDisabled, getPollInterval, get, set, storage_get, storage_set,
    parseFloat, Storage in *; cbn [fst snd] in *.

(** X12: on a storage that binds none of the seven keys, [toJSON] returns the
    defaults: the font size is what [parseFloat] reads in the text of 14, the
    poll interval is 60000, wrap mode and triple quotes are on, polling and
    history-disabled off, and the three autocomplete flags on. *)
Theorem toJSON_defaults storage :
  (∀ key, key ∈ settings_keys → storage !! key = None) →
  (toJSON number_to_string parseFloat_string number_truthy number_of_integer
     storage).1
  = {| json_autocomplete :=
         AObject {| fields := true; indices := true; templates := true |};
       json_wrapMode := ABoolean true;
       json_tripleQuotes := ABoolean true;
       json_fontSize :=
         parseFloat_string (number_to_string (number_of_integer 14));
       json_polling := false;
       json_historyDisabled := false;
       json_pollInterval := ANumber (number_of_integer 60000) |}.
Proof.
  intros Hfree. unfold_methods.
  rewrite !Hfree by (apply (bool_decide_unpack _); vm_compute; reflexivity).
  reflexivity.
Qed.

(** X13: the last update wins: updating twice leaves the storage that the
    second update alone leaves. *)
Theorem updateSettings_last_wins s1 s2 storage :
  (updateSettings s2 (updateSettings s1 storage).2).2
  = (updateSettings s2 storage).2.
Proof.
  rewrite !updateSettings_storage. apply (map_eq (M := gmap string)).
  intros key.
  destruct (decide (key ∈ settings_keys)) as [Hkey | Hkey].
  - unfold settings_keys in Hkey.
    repeat (apply elem_of_cons in Hkey as [-> | Hkey];
            [simplify_map_eq; reflexivity|]).
    apply elem_of_nil in Hkey as [].
  - assert (∀ k, k ∈ settings_keys → k ≠ key) as Hne
      by (intros k Hk ->; contradiction).
    rewrite !lookup_insert_ne
      by (apply Hne, (bool_decide_unpack _); vm_compute; reflexivity).
    reflexivity.
Qed.

(** X14: [updateSettings] writes the seven keys and no other: whatever else
    the storage binds stays as it was. *)
Theorem updateSettings_other_keys s storage key :
  key ∉ settings_keys →
  (updateSettings s storage).2 !! key = storage !! key.
Proof.
  intros Hkey. rewrite updateSettings_storage. unfold Storage.
  assert (∀ k, k ∈ settings_keys → k ≠ key) as Hne
    by (intros k Hk ->; contradiction).
  rewrite !lookup_insert_ne
    by (apply Hne, (bool_decide_unpack _); vm_compute; reflexivity).
  reflexivity.
Qed.

(** X15: a setter changes the member of [toJSON] it is named after and leaves
    the six others as they were. *)
Theorem setters_independent storage (size interval : number)
  (mode quotes poll disable : bool) (settings : Autocomplete) :
  let json := λ storage,
    (toJSON number_to_string parseFloat_string number_truthy
       number_of_integer storage).1 in
  (json (setFontSize size storage).2
   = {| json_autocomplete := json_autocomplete (json storage);
         json_wrapMode := json_wrapMode (json storage);
         json_tripleQuotes := json_tripleQuotes (json storage);
         json_fontSize := parseFloat_string (number_to_string size);
         json_polling := json_polling (json storage);
         json_historyDisabled := json_historyDisabled (json storage);
         json_pollInterval := json_pollInterval (json storage) |}) ∧
  (json (setWrapMode mode storage).2
   = {| json_autocomplete := json_autocomplete (json storage);
         json_wrapMode := ABoolean mode;
         json_tripleQuotes := json_tripleQuotes (json storage);
         json_fontSize := json_fontSize (json storage);
         json_polling := json_polling (json storage);
         json_historyDisabled := json_historyDisabled (json storage);
         json_pollInterval := json_pollInterval (json storage) |}) ∧
  (json (setTripleQuotes quotes storage).2
   = {| json_autocomplete := json_autocomplete (json storage);
         json_wrapMode := json_wrapMode (json storage);
         json_tripleQuotes := ABoolean quotes;
         json_fontSize := json_fontSize (json storage);
         json_polling := json_polling (json storage);
         json_historyDisabled := json_historyDisabled (json storage);
         json_pollInterval := json_pollInterval (json storage) |}) ∧
  (json (setAutocomplete settings storage).2
   = {| json_autocomplete := AObject settings;
         json_wrapMode := json_wrapMode (json storage);
         json_tripleQuotes := json_tripleQuotes (json storage);
         json_fontSize := json_fontSize (json storage);
         json_polling := json_polling (json storage);
         json_historyDisabled := json_historyDisabled (json storage);
         json_pollInterval := json_pollInterval (json storage) |}) ∧
  (json (setPolling poll storage).2
   = {| json_autocomplete := json_autocomplete (json storage);
         json_wrapMode := json_wrapMode (json storage);
         json_tripleQuotes := json_tripleQuotes (json storage);
         json_fontSize := json_fontSize (json storage);
         json_polling := poll;
         json_historyDisabled := json_historyDisabled (json storage);
         json_pollInterval := json_pollInterval (json storage) |}) ∧
  (json (setHistoryDisabled disable storage).2
   = {| json_autocomplete := json_autocomplete (json storage);
         json_wrapMode := json_wrapMode (json storage);
         json_tripleQuotes := json_tripleQuotes (json storage);
         json_fontSize := json_fontSize (json storage);
         json_polling := json_polling (json storage);
         json_historyDisabled := disable;
         json_pollInterval := json_pollInterval (json storage) |}) ∧
  (json (setPollInterval interval storage).2
   = {| json_autocomplete := json_autocomplete (json storage);
         json_wrapMode := json_wrapMode (json storage);
         json_tripleQuotes := json_tripleQuotes (json storage);
         json_fontSize := json_fontSize (json storage);
         json_polling := json_polling (json storage);
         json_historyDisabled := json_historyDisabled (json storage);
         json_pollInterval := ANumber interval |}).
Proof.
  cbn zeta. unfold_methods.
  repeat split; simplify_map_eq; reflexivity.
Qed.

End SettingsStorage.

(** ** The chart's other methods, and the suite's guides *)
Section MemoryChartParts.
Import Memory.

Context {number Column FormBasedLayer XYState : Type}.
Variable DEFAULT_LAYER_ID : string.
Variable getBreakdownColumn : string -> string -> number -> gmap string Column.
Variable getHistogramColumn : string -> string -> gmap string Column.

Implicit Types (this : @Memory.Memory number Column FormBasedLayer).

(** X16: the parts of the chart agree. When [getLayers] returns, it returns
    one layer, under the key that the layer of the visualization state has
    as its [layerId] and that the name of the reference ends in. That layer
    is what the formula API made of the base layer for the column id that
    the visualization state lists as its y accessor. The columns of the base
    layer are those the two helpers of [../utils] return when they are
    called with the x accessor and the split accessor as column names, the
    histogram's winning: so an accessor is a column of the base layer as
    soon as the helper returns a column under the name it is given. *)
Theorem chart_parts_agree this (result : gmap string FormBasedLayer) :
  getLayers DEFAULT_LAYER_ID getBreakdownColumn getHistogramColumn this
    = inr result →
  ∀ layer, layer ∈ layers (visualizationArguments DEFAULT_LAYER_ID) →
    let base := baseLayer getBreakdownColumn getHistogramColumn this in
    let histogram :=
      getHistogramColumn (xAccessor layer)
        (default "@timestamp" (timeFieldName (dataView this))) in
    let breakdown :=
      getBreakdownColumn (splitAccessor layer) "host.name"
        (breakdownSize (options this)) in
    (∀ key, is_Some (result !! key) ↔ key = layerId layer) ∧
    (∀ accessor, accessor ∈ accessors layer →
       insertOrReplaceFormulaColumn (formula_api this) accessor
         memory_usage_formula base (dataView this)
       = result !! layerId layer) ∧
    (∀ reference, reference ∈ getReferences DEFAULT_LAYER_ID this →
       reference_name reference
       = "indexpattern-datasource-layer-" +:+ layerId layer) ∧
    (∀ name,
       columns base !! name
       = match histogram !! name with
         | Some column => Some column
         | None => breakdown !! name
         end) ∧
    (is_Some (histogram !! xAccessor layer) →
     is_Some (columns base !! xAccessor layer)) ∧
    (is_Some (breakdown !! splitAccessor layer) →
     is_Some (columns base !! splitAccessor layer)).
Proof.
  unfold getLayers, dataLayer.
  destruct (insertOrReplaceFormulaColumn _ _ _ _ _) as [made|] eqn:Hmade;
    [|discriminate].
  intros [= <-] layer Hlayer. apply list_elem_of_singleton in Hlayer as ->.
  cbn [layerId accessors xAccessor splitAccessor]. cbn zeta.
  assert (∀ name,
            columns (baseLayer getBreakdownColumn getHistogramColumn this)
              !! name
            = match getHistogramColumn HISTOGRAM_COLUMN_NAME
                      (default "@timestamp" (timeFieldName (dataView this)))
                    !! name with
              | Some column => Some column
              | None =>
                  getBreakdownColumn BREAKDOWN_COLUMN_NAME "host.name"
                    (breakdownSize (options this)) !! name
              end) as Hcolumns.
  { intros name. cbn [baseLayer columns]. unfold spread.
    rewrite lookup_union.
    destruct (getHistogramColumn _ _ !! name) as [column|];
      destruct (getBreakdownColumn _ _ _ !! name); reflexivity. }
  repeat split.
  - intros [v Hv]. apply lookup_singleton_Some in Hv as [<- _]. reflexivity.
  - intros ->. rewrite lookup_singleton_eq. eauto.
  - intros accessor Haccessor.
    apply list_elem_of_singleton in Haccessor as ->.
    rewrite lookup_singleton_eq. exact Hmade.
  - intros reference Href. apply list_elem_of_singleton in Href as ->.
    reflexivity.
  - exact Hcolumns.
  - intros [column Hcolumn]. rewrite Hcolumns, Hcolumn. eauto.
  - intros Hsplit. rewrite Hcolumns.
    destruct (getHistogramColumn _ _ !! BREAKDOWN_COLUMN_NAME); eauto.
Qed.

End MemoryChartParts.

Section CreateGuides.
Import GuidedOnboarding.

Context {Progress : Type}.

Implicit Types (guide : @GuideState Progress) (guides : list (@GuideState Progress))
  (store : list (string * @GuideState Progress)).

Lemma create_ids id guide store :
  (create id guide store).*1 = store.*1 ∨
  ((id ∉ store.*1) ∧ (create id guide store).*1 = store.*1 ++ [id]).
Proof.
  induction store as [|[id' guide'] store IH]; cbn.
  - right. split; [apply not_elem_of_nil | reflexivity].
  - destruct (String.eqb id' id) eqn:E.
    + apply String.eqb_eq in E as ->. left. reflexivity.
    + apply String.eqb_neq in E. destruct IH as [IH | [Hnot IH]].
      * left. cbn. rewrite IH. reflexivity.
      * right. split; [|cbn; rewrite IH; reflexivity].
        rewrite not_elem_of_cons. split; [congruence | assumption].
Qed.

Lemma create_elem_of id guide store id' guide' :
  (id', guide') ∈ create id guide store →
  (id', guide') = (id, guide) ∨ (id', guide') ∈ store.
Proof.
  induction store as [|[id0 guide0] store IH]; cbn.
  - intros H. apply list_elem_of_singleton in H. auto.
  - destruct (String.eqb id0 id).
    + intros H. apply elem_of_cons in H as [H | H]; [auto|].
      right. right. exact H.
    + intros H. apply elem_of_cons in H as [H | H].
      * right. rewrite H. left.
      * destruct (IH H) as [? | ?]; [auto|]. right. right. assumption.
Qed.

Lemma create_lookup id guide store id' :
  own_property (create id guide store) id'
  = if String.eqb id id' then Some guide else own_property store id'.
Proof.
  induction store as [|[id0 guide0] store IH]; cbn.
  - reflexivity.
  - destruct (String.eqb id0 id) eqn:E0; cbn.
    + apply String.eqb_eq in E0 as ->. destruct (String.eqb id id'); reflexivity.
    + rewrite IH. destruct (String.eqb id0 id') eqn:E1; [|reflexivity].
      apply String.eqb_eq in E1 as ->. apply String.eqb_neq in E0.
      destruct (String.eqb id id') eqn:E2; [|reflexivity].
      apply String.eqb_eq in E2. congruence.
Qed.

Lemma create_keyed guide store :
  keyed_by_guideId store → keyed_by_guideId (create (guideId guide) guide store).
Proof.
  intros [Hdup Hkey]. split.
  - destruct (create_ids (guideId guide) guide store) as [-> | [Hnot ->]];
      [assumption|].
    apply NoDup_app. split; [assumption|]. split; [|apply NoDup_singleton].
    intros id Hid Hid'. apply list_elem_of_singleton in Hid' as ->. contradiction.
  - intros id' guide' Hin.
    apply create_elem_of in Hin as [[= -> ->] | Hin]; [reflexivity | eauto].
Qed.

(** X17: [createGuides] keeps the store keyed by [guideId], one object per
    identifier, and where several guides carry the same identifier the last
    one is the one stored; identifiers no guide carries keep what they
    had. *)
Theorem createGuides_last_wins guides :
  ∀ store,
  keyed_by_guideId store →
  keyed_by_guideId (createGuides guides store) ∧
  ∀ id, own_property (createGuides guides store) id
        = match last_with_id id guides with
          | Some guide => Some guide
          | None => own_property store id
          end.
Proof.
  unfold createGuides.
  induction guides as [|guide guides IH]; intros store Hkeyed; cbn [foldl].
  - split; [assumption | reflexivity].
  - destruct (IH _ (create_keyed guide store Hkeyed)) as [Hk Hlookup].
    split; [exact Hk|]. intros id. rewrite Hlookup. cbn [last_with_id].
    destruct (last_with_id id guides); [reflexivity|].
    rewrite create_lookup. destruct (String.eqb (guideId guide) id); reflexivity.
Qed.

End CreateGuides.

(** ** The further properties at the sample inputs *)

Lemma extractState_code_witness :
  "RSTO" ∈ Zeek.codes Samples.translations ∧
  Zeek.extractStateLink Samples.translations Samples.native_function_text
    (JsValue "RSTO")
  = Some "RSTO Connection established, originator aborted".
Proof.
  assert ("RSTO" ∈ Zeek.codes Samples.translations) as Hin
    by (apply (bool_decide_unpack _); vm_compute; reflexivity).
  split; [exact Hin|].
  destruct (extractState_code Samples.translations Samples.native_function_text
              "RSTO" Hin) as (text & Htext & Hlink & _).
  rewrite Hlink. injection Htext as <-. reflexivity.
Defined.

Lemma extractState_other_witness :
  ("S4" ∉ Zeek.codes Samples.translations) ∧
  ("S4" ∉ Object_prototype_members) ∧
  Zeek.extractStateLink Samples.translations Samples.native_function_text
    (JsValue "S4") = Some "S4" ∧
  Zeek.extractStateValue Samples.translations (JsValue "S4") = JsNull.
Proof.
  assert ("S4" ∉ Zeek.codes Samples.translations) as Hcode
    by (apply (bool_decide_unpack _); vm_compute; reflexivity).
  assert ("S4" ∉ Object_prototype_members) as Hproto
    by (apply (bool_decide_unpack _); vm_compute; reflexivity).
  split; [exact Hcode|]. split; [exact Hproto|].
  apply (extractState_other Samples.translations Samples.native_function_text
           "S4" Hcode Hproto).
Defined.

Lemma stateLinkElement_always_linked_witness :
  own_property (Zeek.zeekConnLogDictionay Samples.translations) "SF"
  = Some "Normal SYN/FIN completion" ∧
  Zeek.stateLinkElement Samples.translations Samples.native_function_text
    (JsValue "SF")
  = Some (Zeek.GoogleLinkWithChildren "SF Normal SYN/FIN completion"
            (Zeek.Text "Normal SYN/FIN completion")).
Proof.
  split; [reflexivity|].
  destruct (stateLinkElement_always_linked Samples.translations
              Samples.native_function_text (JsValue "SF")) as (_ & _ & H & _).
  apply (H "SF" "Normal SYN/FIN completion"); reflexivity.
Defined.

Lemma hash_renderers_abridge_witness :
  (String.length "d41d8" ≤ 7)%nat ∧
  Zeek.md5StringRenderer "d41d8" = "md5: d41d8..." ∧
  Zeek.sha1StringRenderer "d41d8" = "sha1: d41d8...".
Proof.
  split; [cbn; lia|].
  destruct (hash_renderers_abridge "d41d8") as (_ & _ & _ & H).
  apply H. cbn. lia.
Defined.

Lemma createFilter_fills_leaves_witness :
  let input := λ form name : string,
    FilterBar.ByTestSubject (FilterBar.TestSubject form) name in
  FilterBar.set_elements
    (FilterBar.createFilter JsNumbers.number_to_string
       Samples.nested_filter "0")
  = [ (input "filter-0.0" "filterFieldSuggestionList", "extension");
      (input "filter-0.0" "filterOperatorList", "is");
      (input "filter-0.1.0" "filterFieldSuggestionList", "bytes");
      (input "filter-0.1.0" "filterOperatorList", "is between");
      (input "filter-0.1.1" "filterFieldSuggestionList", "geo.src");
      (input "filter-0.1.1" "filterOperatorList", "exists") ].
Proof.
  cbn zeta.
  rewrite (createFilter_fills_leaves JsNumbers.number_to_string
             Samples.nested_filter "0").
  reflexivity.
Defined.

Lemma createFilter_types_values_witness :
  FilterBar.typed_texts
    (FilterBar.createFilter JsNumbers.number_to_string
       Samples.values_filter "0")
  = ["jpg"; "png"; ""; "2000"] ∧
  FilterBar.enter_keys
    (FilterBar.createFilter JsNumbers.number_to_string
       Samples.values_filter "0") = 2%nat ∧
  FilterBar.typed_texts
    (FilterBar.createFilter JsNumbers.number_to_string
       Samples.nested_filter "0")
  = ["jpg"; "1000"; ""].
Proof.
  destruct (createFilter_types_values JsNumbers.number_to_string
              Samples.values_filter "0") as [Htexts Hkeys].
  destruct (createFilter_types_values JsNumbers.number_to_string
              Samples.nested_filter "0") as [Htexts' _].
  rewrite Htexts, Hkeys, Htexts'. repeat split.
Defined.

Lemma createFilter_rows_witness :
  FilterBar.no_empty_node Samples.nested_filter = true ∧
  (FilterBar.or_clicks
     (FilterBar.createFilter JsNumbers.number_to_string
        Samples.nested_filter "0")
   + FilterBar.and_clicks
       (FilterBar.createFilter JsNumbers.number_to_string
          Samples.nested_filter "0") + 1
   = length (FilterBar.leaves_at Samples.nested_filter "0"))%nat.
Proof.
  split; [reflexivity|].
  apply (createFilter_rows JsNumbers.number_to_string
           Samples.nested_filter eq_refl "0").
Defined.

Lemma createFilter_stays_below_witness :
  let click :=
    FilterBar.Click
      (FilterBar.ByTestSubject (FilterBar.TestSubject "filter-0")
         "add-and-filter") in
  click ∈ FilterBar.createFilter JsNumbers.number_to_string
            Samples.nested_filter "0" ∧
  ∃ rest, FilterBar.element_form (FilterBar.action_element click)
          = "filter-" +:+ "0" +:+ rest ∧ FilterBar.dotted rest.
Proof.
  cbn zeta.
  assert (FilterBar.Click
            (FilterBar.ByTestSubject (FilterBar.TestSubject "filter-0")
               "add-and-filter")
          ∈ FilterBar.createFilter JsNumbers.number_to_string
              Samples.nested_filter "0") as Hin.
  { apply list_elem_of_In. vm_compute. right. right. left. reflexivity. }
  split; [exact Hin|].
  apply (createFilter_stays_below JsNumbers.number_to_string
           Samples.nested_filter "0" _ Hin).
Defined.

Lemma toJSON_defaults_witness :
  let storage : gmap string (@Settings.Any JsNumbers.number) :=
    {[ "sense:history" := Settings.AString "GET _search" ]} in
  let json :=
    (Settings.toJSON JsNumbers.number_to_string JsNumbers.parseFloat_string
       JsNumbers.number_truthy JsNumbers.number_of_integer storage).1 in
  (∀ key, key ∈ Settings.settings_keys → storage !! key = None) ∧
  JsNumbers.number_to_string (Settings.json_fontSize json) = "14" ∧
  Settings.json_fontSize json = JsNumbers.number_of_integer 14 ∧
  (∃ interval, Settings.json_pollInterval json = Settings.ANumber interval ∧
     JsNumbers.number_to_string interval = "60000") ∧
  Settings.json_wrapMode json = Settings.ABoolean true ∧
  Settings.json_polling json = false.
Proof.
  cbn zeta.
  assert (∀ key, key ∈ Settings.settings_keys →
     ({[ "sense:history" := Settings.AString "GET _search" ]}
        : gmap string (@Settings.Any JsNumbers.number)) !! key = None)
    as Hfree.
  { intros key Hkey. apply lookup_singleton_ne. intros <-.
    revert Hkey. apply (bool_decide_unpack _). vm_compute. reflexivity. }
  split; [exact Hfree|].
  rewrite (toJSON_defaults JsNumbers.number_to_string
             JsNumbers.parseFloat_string JsNumbers.number_truthy
             JsNumbers.number_of_integer _ Hfree).
  cbn [Settings.json_fontSize Settings.json_pollInterval Settings.json_wrapMode
         Settings.json_polling].
  repeat split. eexists. split; reflexivity.
Defined.

Lemma updateSettings_other_keys_witness :
  ("sense:history" ∉ Settings.settings_keys) ∧
  (Settings.updateSettings Samples.console_settings
     {[ "sense:history" := Settings.AString "GET _search" ]}).2
    !! "sense:history"
  = Some (Settings.AString "GET _search").
Proof.
  assert ("sense:history" ∉ Settings.settings_keys) as Hkey
    by (apply (bool_decide_unpack _); vm_compute; reflexivity).
  split; [exact Hkey|].
  exact (eq_trans
           (updateSettings_other_keys Samples.console_settings
              {[ "sense:history" := Settings.AString "GET _search" ]}
              "sense:history" Hkey)
           (lookup_singleton_eq (M := gmap string) _ _)).
Defined.

Lemma chart_parts_agree_witness :
  let base :=
    Memory.baseLayer Samples.breakdown_column Samples.histogram_column
      Samples.memory_chart in
  Memory.getLayers "layer1" Samples.breakdown_column Samples.histogram_column
    Samples.memory_chart
  = inr {[ "layer1" :=
             {| Memory.columnOrder :=
                  ["hosts_aggs_breakdown"; "x_date_histogram";
                   "y_memory_usage"];
                Memory.columns :=
                  <["y_memory_usage" :=
                      "average(system.memory.actual.used.bytes) / max(system.memory.total)"]>
                    (Memory.columns base) |} ]} ∧
  Memory.columns base !! "x_date_histogram"
  = Some "date_histogram of @timestamp" ∧
  is_Some (Memory.columns base !! "x_date_histogram") ∧
  is_Some (Memory.columns base !! "hosts_aggs_breakdown") ∧
  ∀ reference,
    reference ∈ Memory.getReferences "layer1" Samples.memory_chart →
    Memory.reference_name reference = "indexpattern-datasource-layer-layer1".
Proof.
  cbn zeta.
  destruct (chart_parts_agree "layer1" Samples.breakdown_column
              Samples.histogram_column Samples.memory_chart _ eq_refl
              {| Memory.layerId := "layer1";
                 Memory.seriesType := "line";
                 Memory.accessors := ["y_memory_usage"];
                 Memory.yConfig := [];
                 Memory.layerType := "data";
                 Memory.xAccessor := "x_date_histogram";
                 Memory.splitAccessor := "hosts_aggs_breakdown" |}
              (list_elem_of_here _ _))
    as (_ & _ & Hreference & Hcolumns & Hx & Hsplit).
  split; [reflexivity|].
  split; [rewrite Hcolumns; reflexivity|].
  split; [apply Hx; exists "date_histogram of @timestamp"; reflexivity|].
  split; [apply Hsplit; exists "terms of host.name"; reflexivity|].
  exact Hreference.
Defined.

Lemma createGuides_last_wins_witness :
  GuidedOnboarding.keyed_by_guideId
    ([] : list (string * @GuidedOnboarding.GuideState string)) ∧
  own_property
    (GuidedOnboarding.createGuides
       [ Samples.searchAddDataActiveState;
         Samples.securityAddDataInProgressState;
         Samples.securityInactiveState ] []) "security"
  = Some Samples.securityInactiveState.
Proof.
  assert (GuidedOnboarding.keyed_by_guideId
            ([] : list (string * @GuidedOnboarding.GuideState string))) as Hkeyed.
  { split; [constructor|]. intros id guide H. apply elem_of_nil in H as []. }
  split; [exact Hkeyed|].
  destruct (createGuides_last_wins
              [ Samples.searchAddDataActiveState;
                Samples.securityAddDataInProgressState;
                Samples.securityInactiveState ] [] Hkeyed) as [_ H].
  rewrite H. reflexivity.
Defined.
